(** * PHARMACYAI2025: agent session flows and the search connector

    A shallow embedding of the three scripts of [pharmacyresearchai]:
    - [multi-agent.py]: [search_web] and the three-stage pipeline [main];
    - [ai_agent_existing.py]: single query against a pre-existing agent;
    - [ai_agent_create.py]: single query against an agent the run creates.

    The remote services (agent service, search API, console) are an oracle
    [world] that answers every call from the history of the run so far.
    A script is a function in a small trace-and-exception monad: it threads
    the list of [event]s performed and returns either a value or the
    exception that escaped. *)

From Stdlib Require Import String Ascii List ZArith Bool Lia PeanoNat.
Import ListNotations.
Open Scope string_scope.
Set Warnings "-register-all".

(** ** Python values *)

(** A raised exception.  [is_Exception] tells whether its class derives from
    [Exception] (what [except Exception] catches) or only from
    [BaseException] (cancellation, keyboard interrupt); [exn_str] is
    [str(e)]. *)
Record exn : Type := Exn { is_Exception : bool; exn_str : string }.

(** Outcome of a call: [inl e] when it raises [e], [inr v] when it returns. *)
Definition result (A : Type) : Type := (exn + A)%type.

(** What [response.json()] can return.  Numbers are kept as integers: the code
    only looks at whether a number is zero. *)
Inductive json : Type :=
| JNull
| JBool (b : bool)
| JNum (z : Z)
| JStr (s : string)
| JArr (l : list json)
| JObj (kv : list (string * json)).

Definition nl : string := String (ascii_of_nat 10) EmptyString.

Definition TypeError (msg : string) : exn := Exn true ("TypeError: " ++ msg).
Definition AttributeError (msg : string) : exn := Exn true ("AttributeError: " ++ msg).
Definition KeyError (msg : string) : exn := Exn true ("KeyError: " ++ msg).

(** [bool(v)]. *)
Definition truthy (v : json) : bool :=
  match v with
  | JNull => false
  | JBool b => b
  | JNum z => negb (Z.eqb z 0)
  | JStr s => negb (String.eqb s "")
  | JArr l => match l with [] => false | _ => true end
  | JObj kv => match kv with [] => false | _ => true end
  end.

Fixpoint assoc (k : string) (kv : list (string * json)) : option json :=
  match kv with
  | [] => None
  | (k', v) :: kv' => if String.eqb k k' then Some v else assoc k kv'
  end.

Definition is_substring (needle hay : string) : bool :=
  match index 0 needle hay with Some _ => true | None => false end.

Fixpoint chars (s : string) : list json :=
  match s with
  | EmptyString => []
  | String c s' => JStr (String c EmptyString) :: chars s'
  end.

(** [k in v] for a string [k]. *)
Definition py_in (k : string) (v : json) : result bool :=
  match v with
  | JObj kv => inr (match assoc k kv with Some _ => true | None => false end)
  | JArr l =>
      inr (existsb (fun x => match x with JStr s => String.eqb s k | _ => false end) l)
  | JStr s => inr (is_substring k s)
  | _ => inl (TypeError "argument is not iterable")
  end.

(** [v[k]] for a string [k]. *)
Definition py_getitem (v : json) (k : string) : result json :=
  match v with
  | JObj kv => match assoc k kv with Some x => inr x | None => inl (KeyError k) end
  | JArr _ => inl (TypeError "list indices must be integers or slices, not str")
  | JStr _ => inl (TypeError "string indices must be integers, not str")
  | _ => inl (TypeError "object is not subscriptable")
  end.

(** The items [for item in v] visits. *)
Definition py_iter (v : json) : result (list json) :=
  match v with
  | JArr l => inr l
  | JObj kv => inr (map (fun p => JStr (fst p)) kv)
  | JStr s => inr (chars s)
  | _ => inl (TypeError "object is not iterable")
  end.

(** [item.get(k)]: only a dict has the method; a missing key gives [None]. *)
Definition py_get (item : json) (k : string) : result json :=
  match item with
  | JObj kv => inr (match assoc k kv with Some x => x | None => JNull end)
  | _ => inl (AttributeError "object has no attribute 'get'")
  end.

(** [sep.join(l)] on strings. *)
Fixpoint join (sep : string) (l : list string) : string :=
  match l with
  | [] => ""
  | [s] => s
  | s :: l' => s ++ sep ++ join sep l'
  end.

(** The strings of a list of values, or [TypeError] at the first non-string,
    as [str.join] requires. *)
Fixpoint strings_of (l : list json) : result (list string) :=
  match l with
  | [] => inr []
  | JStr s :: l' =>
      match strings_of l' with
      | inl e => inl e
      | inr ss => inr (s :: ss)
      end
  | _ :: _ => inl (TypeError "sequence item: expected str instance")
  end.

Definition py_join (sep : string) (l : list json) : result string :=
  match strings_of l with
  | inl e => inl e
  | inr ss => inr (join sep ss)
  end.

(** ** The outside world *)

Record agent_definition : Type := AgentDefinition { def_id : string }.

(** An HTTP response: the status line and what [await response.json()]
    does with the body. *)
Record http_response : Type :=
  HttpResponse { status : Z; json_body : result json }.

Inductive event : Type :=
| EvInput (prompt : string) (r : result string)
| EvPrint (line : string)
| EvFromConnectionString (conn_str : option string) (r : result unit)
| EvSettingsCreate (r : result string)
| EvEnter (what : string)
| EvExit (what : string)
| EvGetAgent (assistant_id : string) (r : result agent_definition)
| EvCreateAgent (model name instructions : string) (r : result agent_definition)
| EvCreateThread (r : result string)
| EvAddChatMessage (agent_id thread_id message : string) (r : result unit)
| EvGetResponse (agent_id thread_id : string) (r : result string)
| EvDeleteThread (thread_id : string) (r : result unit)
| EvDeleteAgent (agent_id : string) (r : result unit)
| EvHttpGet (url : string) (params : list (string * option string))
            (r : result http_response)
| EvResponseJson (r : result json).

Definition history : Type := list event.

(** Every external answer is a function of the history of the run and of the
    arguments of the call. *)
Record world : Type := World {
  os_environ : string -> option string;
  w_input : history -> string -> result string;
  w_from_connection_string : history -> option string -> result unit;
  w_settings_create : history -> result string;
  w_get_agent : history -> string -> result agent_definition;
  w_create_agent : history -> string -> string -> string -> result agent_definition;
  w_create_thread : history -> result string;
  w_add_chat_message : history -> string -> string -> string -> result unit;
  w_get_response : history -> string -> string -> result string;
  w_delete_thread : history -> string -> result unit;
  w_delete_agent : history -> string -> result unit;
  w_http_get : history -> string -> list (string * option string) -> result http_response
}.

(** ** The monad of a script *)

Definition M (A : Type) : Type := world -> history -> history * result A.

Definition ret {A} (a : A) : M A := fun _ h => (h, inr a).

Definition raise {A} (e : exn) : M A := fun _ h => (h, inl e).

Definition bind {A B} (m : M A) (k : A -> M B) : M B :=
  fun w h =>
    match m w h with
    | (h', inl e) => (h', inl e)
    | (h', inr a) => k a w h'
    end.

Notation "x <- m ;; k" := (bind m (fun x => k))
  (at level 61, m at next level, right associativity).
Notation "m ;;; k" := (bind m (fun _ => k))
  (at level 61, right associativity).

Definition lift {A} (r : result A) : M A := fun _ h => (h, r).

(** [try: body / except Exception as e: handler e]. *)
Definition try_except {A} (body : M A) (handler : exn -> M A) : M A :=
  fun w h =>
    match body w h with
    | (h', inl e) => if is_Exception e then handler e w h' else (h', inl e)
    | (h', inr a) => (h', inr a)
    end.

(** [try: body / finally: cleanup]: the cleanup runs on both paths, and an
    exception of the cleanup replaces the outcome of the body. *)
Definition try_finally {A} (body : M A) (cleanup : M unit) : M A :=
  fun w h =>
    match body w h with
    | (h', r) =>
        match cleanup w h' with
        | (h'', inl e) => (h'', inl e)
        | (h'', inr _) => (h'', r)
        end
    end.

(** One external call: ask the world, log the call with its outcome. *)
Definition call {A} (ask : world -> history -> result A)
                (log : result A -> event) : M A :=
  fun w h =>
    match ask w h with
    | inl e => ((h ++ [log (inl e)])%list, inl e)
    | inr a => ((h ++ [log (inr a)])%list, inr a)
    end.

Definition emit (e : event) : M unit := fun _ h => ((h ++ [e])%list, inr tt).

(** [async with cm: body].  Entering and leaving the credential, client and
    HTTP session objects is taken not to raise; leaving happens on both
    paths. *)
Definition async_with {A} (what : string) (body : M A) : M A :=
  emit (EvEnter what) ;;; try_finally body (emit (EvExit what)).

Definition input (prompt : string) : M string :=
  call (fun w h => w_input w h prompt) (EvInput prompt).
Definition print (line : string) : M unit := emit (EvPrint line).
Definition from_connection_string (conn_str : option string) : M unit :=
  call (fun w h => w_from_connection_string w h conn_str)
       (EvFromConnectionString conn_str).
Definition settings_create : M string :=
  call (fun w h => w_settings_create w h) EvSettingsCreate.
Definition get_agent (assistant_id : string) : M agent_definition :=
  call (fun w h => w_get_agent w h assistant_id) (EvGetAgent assistant_id).
Definition create_agent (model name instructions : string) : M agent_definition :=
  call (fun w h => w_create_agent w h model name instructions)
       (EvCreateAgent model name instructions).
Definition create_thread : M string :=
  call (fun w h => w_create_thread w h) EvCreateThread.
Definition add_chat_message (agent_id thread_id message : string) : M unit :=
  call (fun w h => w_add_chat_message w h agent_id thread_id message)
       (EvAddChatMessage agent_id thread_id message).
Definition get_response (agent_id thread_id : string) : M string :=
  call (fun w h => w_get_response w h agent_id thread_id)
       (EvGetResponse agent_id thread_id).
Definition delete_thread (thread_id : string) : M unit :=
  call (fun w h => w_delete_thread w h thread_id) (EvDeleteThread thread_id).
Definition delete_agent (agent_id : string) : M unit :=
  call (fun w h => w_delete_agent w h agent_id) (EvDeleteAgent agent_id).
Definition session_get (url : string) (params : list (string * option string))
  : M http_response :=
  call (fun w h => w_http_get w h url params) (EvHttpGet url params).
Definition response_json (response : http_response) : M json :=
  call (fun _ _ => json_body response) EvResponseJson.

(** [for x in xs: body x]. *)
Fixpoint for_each {A} (xs : list A) (body : A -> M unit) : M unit :=
  match xs with
  | [] => ret tt
  | x :: xs' => body x ;;; for_each xs' body
  end.

(** ** multi-agent.py *)

Module MultiAgent.

Definition AGENT1_ID : string := "xxxxx".
Definition AGENT2_ID : string := "xxxxxx".
Definition AGENT3_ID : string := "xxxxxx".

(** The module-level configuration, read from the environment. *)
Definition SERP_API_KEY (w : world) : option string :=
  os_environ w "SERP_API_KEY".
Definition SERP_ENDPOINT (w : world) : string :=
  match os_environ w "SERP_ENDPOINT" with
  | Some s => s
  | None => "https://serpapi.com/search.json"
  end.
Definition PROJECT_CONN_STR (w : world) : option string :=
  os_environ w "AZURE_AI_PROJECT_CONNECTION_STRING".

Definition no_results : string := "No results found.".

(** The loop of [search_web]: [snippets] grows by the truthy
    [item.get("snippet")] of each item, in order. *)
Fixpoint collect (items : list json) (snippets : list json)
  : result (list json) :=
  match items with
  | [] => inr snippets
  | item :: items' =>
      match py_get item "snippet" with
      | inl e => inl e
      | inr snippet =>
          collect items' (if truthy snippet then (snippets ++ [snippet])%list
                          else snippets)
      end
  end.

(** The [snippets] list once the [if]/[for] of [search_web] is done. *)
Definition snippets_of (parsed : json) : result (list json) :=
  match py_in "organic_results" parsed with
  | inl e => inl e
  | inr false => inr []
  | inr true =>
      match py_getitem parsed "organic_results" with
      | inl e => inl e
      | inr organic =>
          match py_iter organic with
          | inl e => inl e
          | inr items => collect items []
          end
      end
  end.

(** The [return] expression of [search_web]. *)
Definition digest_of (snippets : list json) : result string :=
  match snippets with
  | [] => inr no_results
  | _ :: _ => py_join nl snippets
  end.

(** What [search_web] computes from [result = await response.json()], here
    [parsed]. *)
Definition digest (parsed : json) : result string :=
  match snippets_of parsed with
  | inl e => inl e
  | inr snippets => digest_of snippets
  end.

Definition search_params (w : world) (query : string)
  : list (string * option string) :=
  [("api_key", SERP_API_KEY w); ("q", Some query);
   ("location", Some "Australia"); ("hl", Some "en")].

Definition search_web (query : string) : M string :=
  fun w =>
    (async_with "aiohttp.ClientSession"
       (response <- session_get (SERP_ENDPOINT w) (search_params w query) ;;
        try_finally
          (parsed <- response_json response ;;
           lift (digest parsed))
          (emit (EvExit "session.get")))) w.

Definition web_message (user_query web_results : string) : string :=
  "Web search results for '" ++ user_query ++ "':" ++ nl ++ web_results.

Definition combined_info (response_doc response_web : string) : string :=
  "Document Agent info: " ++ response_doc ++ nl ++ nl ++
  "Web Agent info: " ++ response_web.

Definition doc_header : string := nl ++ "[Document Search Agent Response]".
Definition web_header : string := nl ++ "[Web Search Agent Response]".
Definition summary_header : string := nl ++ "[Summary Agent Response]".

(** The body of the [async with] block of [main]. *)
Definition pipeline (user_query : string) : M unit :=
  document_agent_def <- get_agent AGENT1_ID ;;
  web_agent_def <- get_agent AGENT2_ID ;;
  summary_agent_def <- get_agent AGENT3_ID ;;
  let document_agent := def_id document_agent_def in
  let web_agent := def_id web_agent_def in
  let summary_agent := def_id summary_agent_def in
  (* Agent 1 *)
  thread1 <- create_thread ;;
  add_chat_message document_agent thread1 user_query ;;;
  response_doc <- get_response document_agent thread1 ;;
  print doc_header ;;;
  print response_doc ;;;
  (* Agent 2 *)
  web_results <- search_web user_query ;;
  thread2 <- create_thread ;;
  add_chat_message web_agent thread2 (web_message user_query web_results) ;;;
  response_web <- get_response web_agent thread2 ;;
  print web_header ;;;
  print response_web ;;;
  (* Agent 3 *)
  thread3 <- create_thread ;;
  add_chat_message summary_agent thread3
    (combined_info response_doc response_web) ;;;
  response_summary <- get_response summary_agent thread3 ;;
  print summary_header ;;;
  print response_summary ;;;
  (* Optional cleanup *)
  for_each [thread1; thread2; thread3] (fun thread =>
    try_except (delete_thread thread)
      (fun e => print ("❌ Error deleting thread " ++ thread ++ ": "
                       ++ exn_str e))).

(** [main].  The [return] of the [except] branch is the [false] flag. *)
Definition main : M unit :=
  fun w =>
    (user_query <-
       input "Enter your query for planning and building permit info: " ;;
     initialized <-
       try_except
         (from_connection_string (PROJECT_CONN_STR w) ;;;
          print "✅ Project client initialized." ;;;
          ret true)
         (fun e =>
            print ("❌ Error initializing project client: " ++ exn_str e) ;;;
            ret false) ;;
     if initialized
     then async_with "credential"
            (async_with "AzureAIAgent.create_client" (pipeline user_query))
     else ret tt) w.

End MultiAgent.

(** ** ai_agent_existing.py *)

Module Existing.

Definition user_query : string :=
  "Can Azure App Services be integrated with Vnet?".

Definition main : M unit :=
  async_with "DefaultAzureCredential"
    (async_with "AzureAIAgent.create_client"
       (agent_definition <- get_agent "xxxxxxx" ;;
        let agent := def_id agent_definition in
        thread <- create_thread ;;
        try_finally
          (add_chat_message agent thread user_query ;;;
           print ("# User: " ++ user_query) ;;;
           response <- get_response agent thread ;;
           print ("# Agent: " ++ response))
          (delete_thread thread))).

End Existing.

(** ** ai_agent_create.py *)

Module Create.

Definition user_query : string :=
  "Can Azure App Services be integrated with Vnet?".

Definition instructions : string :=
  "You are a helpful assistant that provides technical support regarding Azure services. Keep the answers short and concise".

Definition main : M unit :=
  model_deployment_name <- settings_create ;;
  async_with "DefaultAzureCredential"
    (async_with "AzureAIAgent.create_client"
       (agent_definition <-
          create_agent model_deployment_name "TechSupportAdvisor" instructions ;;
        let agent := def_id agent_definition in
        thread <- create_thread ;;
        try_finally
          (add_chat_message agent thread user_query ;;;
           print ("# User: " ++ user_query) ;;;
           response <- get_response agent thread ;;
           print ("# TechSupportAdvisor: " ++ response))
          (delete_thread thread ;;;
           delete_agent agent))).

End Create.

(** ** The process *)

(** [if __name__ == "__main__": asyncio.run(main())]: the interpreter ends
    with status 0 when [main] returns and with status 1 when an exception
    escapes it. *)
Definition exit_status (r : result unit) : Z :=
  match r with
  | inr _ => 0
  | inl _ => 1
  end.

Definition run (main : M unit) (w : world) : history * result unit :=
  main w [].

Definition trace (main : M unit) (w : world) : history := fst (run main w).
Definition outcome (main : M unit) (w : world) : result unit := snd (run main w).

(** ** Specification-side vocabulary *)

(** The value of the [snippet] field of a result item ([None] when the item
    carries none). *)
Definition snippet_field (item : json) : json :=
  match item with
  | JObj kv => match assoc "snippet" kv with Some x => x | None => JNull end
  | _ => JNull
  end.

(** The excerpts of a result collection: the truthy snippet fields, in the
    order of the items. *)
Definition excerpts (items : list json) : list json :=
  filter truthy (map snippet_field items).

(** The text of the snippet of an item when it is present and a non-empty
    string. *)
Definition kept_snippet (item : json) : list string :=
  match snippet_field item with
  | JStr s => if String.eqb s "" then [] else [s]
  | _ => []
  end.

Definition kept_snippets (items : list json) : list string :=
  flat_map kept_snippet items.

(** A result item as the search API documents it: an object whose snippet,
    when present, is a string or null. *)
Definition item_ok (item : json) : bool :=
  match item with
  | JObj kv =>
      match assoc "snippet" kv with
      | None | Some JNull | Some (JStr _) => true
      | Some _ => false
      end
  | _ => false
  end.

Definition newline : ascii := ascii_of_nat 10.

Fixpoint no_newline (s : string) : bool :=
  match s with
  | EmptyString => true
  | String c s' => negb (Ascii.eqb c newline) && no_newline s'
  end.

(** [s.split("\n")]. *)
Fixpoint split_lines (s : string) : list string :=
  match s with
  | EmptyString => [""]
  | String c s' =>
      if Ascii.eqb c newline then "" :: split_lines s'
      else match split_lines s' with
           | l :: ls => String c l :: ls
           | [] => [String c ""]
           end
  end.

(** The labelled-sections template of a summary input: one section per
    upstream stage, [label: response], sections separated by a blank line. *)
Definition section_of (stage : string * string) : string :=
  fst stage ++ ": " ++ snd stage.

Definition labeled_sections (stages : list (string * string)) : string :=
  join (nl ++ nl) (map section_of stages).

(** Where a body that [snippets_of] accepts keeps its result items. *)
Definition result_items (parsed : json) : list json :=
  match parsed with
  | JObj kv =>
      match assoc "organic_results" kv with
      | Some (JArr l) => l
      | _ => []
      end
  | _ => []
  end.

(** *** Observations on a history *)

Definition is_open_call (e : event) : bool :=
  match e with EvCreateThread _ => true | _ => false end.

Definition is_open_session (e : event) : bool :=
  match e with EvCreateThread (inr _) => true | _ => false end.

Definition is_close_session (e : event) : bool :=
  match e with EvDeleteThread _ _ => true | _ => false end.

Definition is_agent_call (e : event) : bool :=
  match e with
  | EvGetAgent _ _ | EvCreateAgent _ _ _ _ | EvCreateThread _
  | EvAddChatMessage _ _ _ _ | EvGetResponse _ _ _
  | EvDeleteThread _ _ | EvDeleteAgent _ _ => true
  | _ => false
  end.

(** Number of [create_thread] calls (openSession), failed ones included. *)
Definition open_calls (h : history) : nat := length (filter is_open_call h).

(** Number of sessions opened: the [create_thread] calls that returned. *)
Definition opened (h : history) : nat := length (filter is_open_session h).

(** Number of [delete_thread] calls (closeSession attempts). *)
Definition close_attempts (h : history) : nat :=
  length (filter is_close_session h).

(** Messages posted with [add_chat_message], in order. *)
Definition posted (h : history) : list string :=
  flat_map (fun e => match e with
                     | EvAddChatMessage _ _ m _ => [m]
                     | _ => []
                     end) h.

(** Number of [get_response] calls. *)
Definition asks (h : history) : nat :=
  length (filter (fun e => match e with
                           | EvGetResponse _ _ _ => true
                           | _ => false
                           end) h).

(** Responses the agents produced, in order. *)
Definition responses (h : history) : list string :=
  flat_map (fun e => match e with
                     | EvGetResponse _ _ (inr r) => [r]
                     | _ => []
                     end) h.

(** Lines written to standard output, in order. *)
Definition printed (h : history) : list string :=
  flat_map (fun e => match e with EvPrint l => [l] | _ => [] end) h.

(** Identifiers of the agents [delete_agent] was called on. *)
Definition deleted_agents (h : history) : list string :=
  flat_map (fun e => match e with EvDeleteAgent a _ => [a] | _ => [] end) h.

(** Identifiers of the agents [create_agent] returned. *)
Definition created_agents (h : history) : list string :=
  flat_map (fun e => match e with
                     | EvCreateAgent _ _ _ (inr d) => [def_id d]
                     | _ => []
                     end) h.

(** Errors raised by [delete_thread]. *)
Definition cleanup_errors (h : history) : list exn :=
  flat_map (fun e => match e with
                     | EvDeleteThread _ (inl x) => [x]
                     | _ => []
                     end) h.

(** Errors raised by the search request or by the parsing of its body. *)
Definition search_errors (h : history) : list exn :=
  flat_map (fun e => match e with
                     | EvHttpGet _ _ (inl x) => [x]
                     | EvResponseJson (inl x) => [x]
                     | _ => []
                     end) h.

(** Bodies the search request returned, with the status of their response. *)
Definition search_bodies (h : history) : list (Z * json) :=
  flat_map (fun e => match e with
                     | EvHttpGet _ _ (inr (HttpResponse st (inr b))) => [(st, b)]
                     | _ => []
                     end) h.

(** Queries read from the console. *)
Definition queries (h : history) : list string :=
  flat_map (fun e => match e with
                     | EvInput _ (inr q) => [q]
                     | _ => []
                     end) h.

(** Errors raised while the project client was constructed. *)
Definition config_errors (h : history) : list exn :=
  flat_map (fun e => match e with
                     | EvFromConnectionString _ (inl x) => [x]
                     | _ => []
                     end) h.



(** The responses the summary stage builds its input from. *)
Definition upstream (h : history) : list string := firstn 2 (responses h).

Definition summary_labels : list string :=
  ["Document Agent info"; "Web Agent info"].

Definition initialized_line : string := "✅ Project client initialized.".

(** C2 as the specification words it: a failed search does not end the run,
    the web stage is given the sentinel instead. *)
Definition search_failure_degrades (w : world) : Prop :=
  search_errors (trace MultiAgent.main w) <> [] ->
  outcome MultiAgent.main w = inr tt /\
  exists q, In (MultiAgent.web_message q MultiAgent.no_results)
               (posted (trace MultiAgent.main w)).

(** C4 as the specification words it: a configuration error ends the run
    before any session or agent call, with a non-zero exit status. *)
Definition config_error_exits_nonzero (w : world) : Prop :=
  config_errors (trace MultiAgent.main w) <> [] ->
  opened (trace MultiAgent.main w) = 0 /\
  filter is_agent_call (trace MultiAgent.main w) = [] /\
  exit_status (outcome MultiAgent.main w) <> 0%Z.

(** What the pipeline writes for the stages that produced a response: the
    header of the stage, then its response. *)
Definition stage_headers : list string :=
  [MultiAgent.doc_header; MultiAgent.web_header; MultiAgent.summary_header].

Fixpoint report (headers rs : list string) : list string :=
  match headers, rs with
  | hd :: headers', r :: rs' => hd :: r :: report headers' rs'
  | _, _ => []
  end.

(** *** Sample worlds *)

Definition sample_query : string := "permit rules for a deck".

Definition sample_body : json :=
  JObj [("search_metadata", JObj [("status", JStr "Success")]);
        ("organic_results",
         JArr [JObj [("title", JStr "Decks"); ("snippet", JStr "A permit is needed.")];
               JObj [("title", JStr "No excerpt")];
               JObj [("title", JStr "Empty"); ("snippet", JStr "")];
               JObj [("title", JStr "Null"); ("snippet", JNull)];
               JObj [("title", JStr "Fees"); ("snippet", JStr "Fees apply.")]])].

Definition error_body : json :=
  JObj [("error", JStr "Your account has run out of searches.")].

Definition thread_name (n : nat) : string :=
  match n with
  | 0 => "thread_1"
  | 1 => "thread_2"
  | _ => "thread_3"
  end.

(** A world in which every call succeeds, except as the four arguments say:
    the construction of the project client, the search request, the replies
    of the agents and the deletion of threads. *)
Definition mk_world (conn : result unit) (http : result http_response)
    (reply : history -> string -> string -> result string)
    (del : history -> string -> result unit) : world :=
  {| os_environ := fun _ => None;
     w_input := fun _ _ => inr sample_query;
     w_from_connection_string := fun _ _ => conn;
     w_settings_create := fun _ => inr "gpt-4o";
     w_get_agent := fun _ id => inr (AgentDefinition id);
     w_create_agent := fun _ _ _ _ => inr (AgentDefinition "asst_new");
     w_create_thread := fun h => inr (thread_name (opened h));
     w_add_chat_message := fun _ _ _ _ => inr tt;
     w_get_response := reply;
     w_delete_thread := del;
     w_delete_agent := fun _ _ => inr tt;
     w_http_get := fun _ _ _ => http |}.

Definition reply_ok (h : history) (agent thread : string) : result string :=
  inr ("reply in " ++ thread).

Definition AgentInvocationError : exn := Exn true "AgentInvocationError".

(** The second [get_response] of the run raises. *)
Definition reply_second_fails (h : history) (agent thread : string)
  : result string :=
  match asks h with
  | 1 => inl AgentInvocationError
  | _ => reply_ok h agent thread
  end.

Definition del_ok (h : history) (thread : string) : result unit := inr tt.

Definition del_fails (h : history) (thread : string) : result unit :=
  inl (Exn true "thread not found").

Definition good_world : world :=
  mk_world (inr tt) (inr (HttpResponse 200 (inr sample_body))) reply_ok del_ok.

Definition quota_world : world :=
  mk_world (inr tt) (inr (HttpResponse 429 (inr error_body))) reply_ok del_ok.

Definition search_down_world : world :=
  mk_world (inr tt) (inl (Exn true "ClientConnectorError")) reply_ok del_ok.

Definition bad_config_world : world :=
  mk_world (inl (Exn true "Connection string is missing"))
           (inr (HttpResponse 200 (inr sample_body))) reply_ok del_ok.

Definition ask_fails_world : world :=
  mk_world (inr tt) (inr (HttpResponse 200 (inr sample_body)))
           reply_second_fails del_ok.

Definition cleanup_fails_world : world :=
  mk_world (inr tt) (inr (HttpResponse 200 (inr sample_body)))
           reply_ok del_fails.

(** *** Further observations *)

Definition is_object (v : json) : bool :=
  match v with JObj _ => true | _ => false end.

Definition is_string (v : json) : bool :=
  match v with JStr _ => true | _ => false end.

(** Number of search requests sent. *)
Definition http_calls (h : history) : nat :=
  length (filter (fun e => match e with
                           | EvHttpGet _ _ _ => true
                           | _ => false
                           end) h).

(** Identifiers of the threads [create_thread] returned, in order. *)
Definition created_threads (h : history) : list string :=
  flat_map (fun e => match e with
                     | EvCreateThread (inr t) => [t]
                     | _ => []
                     end) h.

(** Identifiers of the threads [delete_thread] was called on, in order. *)
Definition deleted_threads (h : history) : list string :=
  flat_map (fun e => match e with EvDeleteThread t _ => [t] | _ => [] end) h.

(** Identifiers of the threads a message was posted to, a reply awaited on
    or a deletion asked for. *)
Definition touched_threads (h : history) : list string :=
  flat_map (fun e => match e with
                     | EvAddChatMessage _ t _ _ => [t]
                     | EvGetResponse _ t _ => [t]
                     | EvDeleteThread t _ => [t]
                     | _ => []
                     end) h.

(** Identifiers of the agents [get_agent] or [create_agent] returned. *)
Definition resolved_agents (h : history) : list string :=
  flat_map (fun e => match e with
                     | EvGetAgent _ (inr d) => [def_id d]
                     | EvCreateAgent _ _ _ (inr d) => [def_id d]
                     | _ => []
                     end) h.

(** Identifiers of the agents a message was posted through or a reply asked
    of. *)
Definition used_agents (h : history) : list string :=
  flat_map (fun e => match e with
                     | EvAddChatMessage a _ _ _ => [a]
                     | EvGetResponse a _ _ => [a]
                     | _ => []
                     end) h.

(** Every reply is awaited from an agent on a thread on which a message was
    posted through that agent, and accepted, earlier in the history.  [seen]
    holds the agent and thread of the posts so far. *)
Fixpoint posted_before (seen : list (string * string)) (h : history) : Prop :=
  match h with
  | [] => True
  | EvAddChatMessage a t _ (inr _) :: h' => posted_before ((a, t) :: seen) h'
  | EvGetResponse a t _ :: h' => In (a, t) seen /\ posted_before seen h'
  | _ :: h' => posted_before seen h'
  end.

(** Errors raised by [get_agent]. *)
Definition resolve_errors (h : history) : list exn :=
  flat_map (fun e => match e with
                     | EvGetAgent _ (inl x) => [x]
                     | _ => []
                     end) h.

(** Errors raised by [create_thread]. *)
Definition open_errors (h : history) : list exn :=
  flat_map (fun e => match e with
                     | EvCreateThread (inl x) => [x]
                     | _ => []
                     end) h.

(** Errors raised by [add_chat_message] or [get_response]. *)
Definition ask_errors (h : history) : list exn :=
  flat_map (fun e => match e with
                     | EvAddChatMessage _ _ _ (inl x) => [x]
                     | EvGetResponse _ _ (inl x) => [x]
                     | _ => []
                     end) h.

(** Errors raised by [delete_agent]. *)
Definition delete_agent_errors (h : history) : list exn :=
  flat_map (fun e => match e with
                     | EvDeleteAgent _ (inl x) => [x]
                     | _ => []
                     end) h.

(** The lines the cleanup loop of the pipeline writes for the deletions that
    raised. *)
Definition cleanup_report (h : history) : list string :=
  flat_map (fun e => match e with
                     | EvDeleteThread t (inl x) =>
                         ["❌ Error deleting thread " ++ t ++ ": " ++ exn_str x]
                     | _ => []
                     end) h.

(** The context managers are left in the reverse order of their entering,
    none stays open, and the agent service is only called while the client
    is open.  [stack] holds the contexts open so far; a search request that
    returned opens the context of its response. *)
Fixpoint nested (stack : list string) (h : history) : bool :=
  match h with
  | [] => match stack with [] => true | _ :: _ => false end
  | EvEnter what :: h' => nested (what :: stack) h'
  | EvHttpGet _ _ (inr _) :: h' => nested ("session.get" :: stack) h'
  | EvExit what :: h' =>
      match stack with
      | top :: stack' => String.eqb top what && nested stack' h'
      | [] => false
      end
  | e :: h' =>
      (negb (is_agent_call e)
       || existsb (String.eqb "AzureAIAgent.create_client") stack)
      && nested stack h'
  end.

(** *** Further sample worlds *)

Definition set_get_agent
    (f : history -> string -> result agent_definition) (w : world) : world :=
  {| os_environ := os_environ w;
     w_input := w_input w;
     w_from_connection_string := w_from_connection_string w;
     w_settings_create := w_settings_create w;
     w_get_agent := f;
     w_create_agent := w_create_agent w;
     w_create_thread := w_create_thread w;
     w_add_chat_message := w_add_chat_message w;
     w_get_response := w_get_response w;
     w_delete_thread := w_delete_thread w;
     w_delete_agent := w_delete_agent w;
     w_http_get := w_http_get w |}.

Definition set_create_thread
    (f : history -> result string) (w : world) : world :=
  {| os_environ := os_environ w;
     w_input := w_input w;
     w_from_connection_string := w_from_connection_string w;
     w_settings_create := w_settings_create w;
     w_get_agent := w_get_agent w;
     w_create_agent := w_create_agent w;
     w_create_thread := f;
     w_add_chat_message := w_add_chat_message w;
     w_get_response := w_get_response w;
     w_delete_thread := w_delete_thread w;
     w_delete_agent := w_delete_agent w;
     w_http_get := w_http_get w |}.

Definition AgentNotFound : exn := Exn true "AgentNotFound".
Definition CancelledError : exn := Exn false "CancelledError".

(** The second agent identifier does not resolve. *)
Definition agent_missing_world : world :=
  set_get_agent (fun h id => match length h with
                             | 6 => inl AgentNotFound
                             | _ => inr (AgentDefinition id)
                             end) good_world.

(** No thread can be created. *)
Definition no_thread_world : world :=
  set_create_thread (fun _ => inl (Exn true "thread quota exceeded"))
                    good_world.

(** The deletion of the second thread fails, the others go through. *)
Definition del_second_fails (h : history) (thread : string) : result unit :=
  if String.eqb thread "thread_2" then inl (Exn true "thread not found")
  else inr tt.

Definition flaky_cleanup_world : world :=
  mk_world (inr tt) (inr (HttpResponse 200 (inr sample_body)))
           reply_ok del_second_fails.

(** The run is cancelled while the first thread is deleted. *)
Definition cancelled_cleanup_world : world :=
  mk_world (inr tt) (inr (HttpResponse 200 (inr sample_body)))
           reply_ok (fun _ _ => inl CancelledError).

(** The construction of the project client is interrupted. *)
Definition cancelled_config_world : world :=
  mk_world (inl CancelledError)
           (inr (HttpResponse 200 (inr sample_body))) reply_ok del_ok.

(** Every reply fails and so does every deletion. *)
Definition all_fails_world : world :=
  mk_world (inr tt) (inr (HttpResponse 200 (inr sample_body)))
           (fun _ _ _ => inl AgentInvocationError) del_fails.

(** Every post and every wait fails, the deletions go through. *)
Definition query_fails_world : world :=
  mk_world (inr tt) (inr (HttpResponse 200 (inr sample_body)))
           (fun _ _ _ => inl AgentInvocationError) del_ok.

(** The search answers with status 500 and the sample body. *)
Definition odd_status_world : world :=
  mk_world (inr tt) (inr (HttpResponse 500 (inr sample_body))) reply_ok del_ok.

(** A body whose second result item is a bare string. *)
Definition bare_item_body : json :=
  JObj [("organic_results",
         JArr [JObj [("snippet", JStr "A permit is needed.")];
               JStr "advertisement"])].

(** A body whose second result item carries a number as snippet. *)
Definition number_snippet_body : json :=
  JObj [("organic_results",
         JArr [JObj [("snippet", JStr "A permit is needed.")];
               JObj [("snippet", JNum 42)]])].

(** ** Lemmas on the search connector *)

Section SearchLemmas.

Lemma collect_acc (items acc r : list json) :
  MultiAgent.collect items acc = inr r -> r = (acc ++ excerpts items)%list.
Proof.
  revert acc; induction items as [|item items IH]; intros acc H; cbn in H.
  - injection H as <-. unfold excerpts; cbn. now rewrite app_nil_r.
  - destruct item; cbn in H; try discriminate.
    apply IH in H. subst r. unfold excerpts; cbn.
    destruct (truthy _); cbn; [now rewrite <- app_assoc | reflexivity].
Qed.

Lemma collect_objects (items acc : list json) :
  forallb item_ok items = true ->
  MultiAgent.collect items acc = inr (acc ++ excerpts items)%list.
Proof.
  revert acc; induction items as [|item items IH]; intros acc H; cbn in *.
  - unfold excerpts; cbn. now rewrite app_nil_r.
  - apply andb_true_iff in H as [Hi Hr].
    destruct item; cbn in Hi; try discriminate. cbn.
    rewrite IH by assumption. unfold excerpts; cbn.
    destruct (truthy _); cbn; [now rewrite <- app_assoc | reflexivity].
Qed.

Lemma excerpts_ok (items : list json) :
  forallb item_ok items = true ->
  excerpts items = map JStr (kept_snippets items).
Proof.
  induction items as [|item items IH]; intros H; cbn in *; [reflexivity|].
  apply andb_true_iff in H as [Hi Hr]. specialize (IH Hr).
  unfold excerpts, kept_snippets in *; cbn.
  unfold kept_snippet. destruct item; cbn in Hi; try discriminate. cbn.
  destruct (assoc "snippet" kv) as [[| | |s| |]|]; cbn; try discriminate;
    try exact IH.
  destruct (String.eqb s ""); cbn; [exact IH | now rewrite IH].
Qed.

Lemma strings_of_map (ss : list string) :
  strings_of (map JStr ss) = inr ss.
Proof.
  induction ss as [|s ss IH]; cbn; [reflexivity | now rewrite IH].
Qed.

Lemma strings_of_inv (l : list json) (ss : list string) :
  strings_of l = inr ss -> l = map JStr ss.
Proof.
  revert ss; induction l as [|v l IH]; intros ss H; cbn in H.
  - now injection H as <-.
  - destruct v; try discriminate.
    destruct (strings_of l) as [e|ss'] eqn:E; try discriminate.
    injection H as <-. cbn. now rewrite (IH ss').
Qed.

Lemma kept_snippets_nonempty (items : list json) :
  Forall (fun s => s <> "") (kept_snippets items).
Proof.
  induction items as [|item items IH]; cbn; [constructor|].
  apply Forall_app; split; [|exact IH].
  unfold kept_snippet. destruct (snippet_field item); try constructor.
  destruct (String.eqb s "") eqn:E; constructor; [|constructor].
  intros ->. now rewrite String.eqb_refl in E.
Qed.

Lemma excerpts_truthy (items : list json) :
  Forall (fun v => truthy v = true) (excerpts items).
Proof.
  unfold excerpts. apply Forall_forall. intros v Hv.
  now apply filter_In in Hv.
Qed.

Lemma join_nonempty (sep : string) (ss : list string) :
  ss <> [] -> Forall (fun s => s <> "") ss -> join sep ss <> "".
Proof.
  intros Hne Hall. destruct ss as [|s ss]; [congruence|].
  inversion Hall as [|? ? Hs _]; subst.
  destruct s as [|c s]; [congruence|].
  cbn. destruct ss; cbn; discriminate.
Qed.

Lemma strings_of_truthy (l : list json) (ss : list string) :
  strings_of l = inr ss ->
  Forall (fun v => truthy v = true) l ->
  Forall (fun s => s <> "") ss.
Proof.
  intros H Ht. apply strings_of_inv in H. subst l.
  induction ss as [|s ss IH]; constructor; inversion Ht; subst; auto.
  intros ->. discriminate.
Qed.

(** When the truthy snippet fields are all strings, they are the kept
    snippets. *)
Lemma excerpts_strings (items : list json) (ss : list string) :
  excerpts items = map JStr ss -> kept_snippets items = ss.
Proof.
  unfold excerpts, kept_snippets.
  revert ss; induction items as [|item items IH]; intros ss H; cbn in *.
  - destruct ss; [reflexivity | discriminate].
  - unfold kept_snippet.
    destruct (snippet_field item) as [|b|z|s|l|kv] eqn:E; cbn in H.
    + now apply IH.
    + destruct b; [destruct ss; discriminate | now apply IH].
    + destruct (negb (Z.eqb z 0)); [destruct ss; discriminate | now apply IH].
    + destruct (String.eqb s ""); cbn in H; [now apply IH|].
      destruct ss as [|s' ss]; [discriminate|].
      injection H as -> H. cbn. f_equal. now apply IH.
    + destruct l; [now apply IH | destruct ss; discriminate].
    + destruct kv; [now apply IH | destruct ss; discriminate].
Qed.

(** The snippets the loop gathers are the excerpts of the result items. *)
Lemma snippets_of_items (parsed : json) (l : list json) :
  MultiAgent.snippets_of parsed = inr l ->
  l = excerpts (result_items parsed).
Proof.
  unfold MultiAgent.snippets_of, result_items.
  destruct parsed as [|b|z|s|arr|kv]; cbn; try discriminate.
  - destruct (is_substring _ _); [discriminate|]. now intros [= <-].
  - destruct (existsb _ arr); [discriminate|]. now intros [= <-].
  - destruct (assoc "organic_results" kv) as [organic|]; [|now intros [= <-]].
    destruct organic as [|b|z|s|items|kv']; cbn; try discriminate.
    + destruct s as [|c s]; cbn; [now intros [= <-] | discriminate].
    + intros H. apply collect_acc in H. exact H.
    + destruct kv' as [|[k v] kv']; cbn; [now intros [= <-] | discriminate].
Qed.

Lemma no_results_nonempty : MultiAgent.no_results <> "".
Proof. discriminate. Qed.

(** What [digest] returns, in terms of the excerpts of the result items. *)
Lemma digest_inv (parsed : json) (s : string) :
  MultiAgent.digest parsed = inr s ->
  exists ss,
    excerpts (result_items parsed) = map JStr ss /\
    Forall (fun x => x <> "") ss /\
    s = match ss with [] => MultiAgent.no_results | _ :: _ => join nl ss end.
Proof.
  unfold MultiAgent.digest.
  destruct (MultiAgent.snippets_of parsed) as [e|l] eqn:E; [discriminate|].
  apply snippets_of_items in E.
  pose proof (excerpts_truthy (result_items parsed)) as Ht. rewrite <- E in *.
  clear E. unfold MultiAgent.digest_of, py_join.
  destruct l as [|v l].
  - intros [= <-]. exists []. repeat split. constructor.
  - destruct (strings_of (v :: l)) as [e|ss] eqn:Es; [discriminate|].
    intros [= <-]. exists ss.
    pose proof (strings_of_inv _ _ Es) as Hm.
    split; [exact Hm|]. split; [eapply strings_of_truthy; eauto|].
    destruct ss; [discriminate | reflexivity].
Qed.

Lemma digest_documented (kv : list (string * json)) (items : list json) :
  assoc "organic_results" kv = Some (JArr items) ->
  forallb item_ok items = true ->
  MultiAgent.digest (JObj kv) =
  inr (match kept_snippets items with
       | [] => MultiAgent.no_results
       | _ :: _ => join nl (kept_snippets items)
       end).
Proof.
  intros Hk Hok. unfold MultiAgent.digest, MultiAgent.snippets_of.
  cbn. rewrite Hk. cbn. rewrite (collect_objects items [] Hok). cbn.
  rewrite (excerpts_ok items Hok).
  unfold MultiAgent.digest_of, py_join.
  destruct (kept_snippets items) as [|s ss] eqn:E; [reflexivity|].
  change (JStr s :: map JStr ss) with (map JStr (s :: ss)).
  now rewrite strings_of_map.
Qed.

Lemma digest_no_organic (kv : list (string * json)) :
  assoc "organic_results" kv = None ->
  MultiAgent.digest (JObj kv) = inr MultiAgent.no_results.
Proof.
  intros Hk. unfold MultiAgent.digest, MultiAgent.snippets_of. cbn.
  now rewrite Hk.
Qed.

Lemma split_lines_single (s : string) :
  no_newline s = true -> split_lines s = [s].
Proof.
  induction s as [|c s IH]; cbn; [reflexivity|].
  intros H. apply andb_true_iff in H as [Hc Hs].
  apply negb_true_iff in Hc. rewrite Hc, (IH Hs). reflexivity.
Qed.

Lemma split_lines_app (s rest : string) :
  no_newline s = true ->
  split_lines (s ++ nl ++ rest) = s :: split_lines rest.
Proof.
  induction s as [|c s IH]; cbn; [reflexivity|].
  intros H. apply andb_true_iff in H as [Hc Hs].
  apply negb_true_iff in Hc. rewrite Hc.
  cbn in IH. rewrite (IH Hs). reflexivity.
Qed.

(** Splitting a digest of newline-free snippets gives the snippets back. *)
Lemma split_lines_join (ss : list string) :
  ss <> [] -> forallb no_newline ss = true ->
  split_lines (join nl ss) = ss.
Proof.
  induction ss as [|s ss IH]; [congruence|]. intros _ H.
  cbn in H. apply andb_true_iff in H as [Hs Hss].
  destruct ss as [|s' ss].
  - cbn. now apply split_lines_single.
  - change (join nl (s :: s' :: ss)) with (s ++ nl ++ join nl (s' :: ss)).
    rewrite split_lines_app by assumption.
    rewrite IH; [reflexivity | discriminate | assumption].
Qed.

End SearchLemmas.

(** ** Running a script on an arbitrary world *)

(** An answer of the world, of the body parser or of the digest that the run
    is waiting for. *)
Ltac answer x :=
  lazymatch x with
  | w_input _ _ _ => idtac
  | w_from_connection_string _ _ _ => idtac
  | w_settings_create _ _ => idtac
  | w_get_agent _ _ _ => idtac
  | w_create_agent _ _ _ _ _ => idtac
  | w_create_thread _ _ => idtac
  | w_add_chat_message _ _ _ _ _ => idtac
  | w_get_response _ _ _ _ => idtac
  | w_delete_thread _ _ _ => idtac
  | w_delete_agent _ _ _ => idtac
  | w_http_get _ _ _ _ => idtac
  | json_body _ => idtac
  | MultiAgent.digest _ => idtac
  end.

Ltac unfold_script :=
  cbv beta iota zeta delta
    [run trace outcome fst snd app
     MultiAgent.main MultiAgent.pipeline MultiAgent.search_web
     Existing.main Create.main
     bind ret raise lift call emit
     try_except try_finally async_with for_each
     input print from_connection_string settings_create get_agent
     create_agent create_thread add_chat_message get_response
     delete_thread delete_agent session_get response_json].

(** Split on the next answer, in the order of the run, and go on. *)
Ltac exec_step :=
  match goal with
  | |- context [match ?x with inl _ => _ | inr _ => _ end] =>
      answer x; destruct x as [?e|?v] eqn:?
  | |- context [if is_Exception ?e then _ else _] =>
      destruct (is_Exception e) eqn:?
  end;
  cbv beta iota.

Ltac exec := unfold_script; repeat exec_step.

Ltac split_ors :=
  repeat match goal with
         | H : _ \/ _ |- _ => destruct H
         | H : False |- _ => destruct H
         | H : _ /\ _ |- _ => destruct H
         end.

(** ** Agent deletion *)

Lemma existing_never_deletes_agent w :
  deleted_agents (trace Existing.main w) = [].
Proof. exec; reflexivity. Qed.

Lemma multi_agent_never_deletes_agent w :
  deleted_agents (trace MultiAgent.main w) = [].
Proof. exec; reflexivity. Qed.

Lemma create_deletes_own_agent w :
  incl (deleted_agents (trace Create.main w))
       (created_agents (trace Create.main w)).
Proof. exec; cbn; auto using incl_refl, incl_nil_l. Qed.

(** C7: the flows that resolve a pre-existing agent by identifier
    ([ai_agent_existing.py], [multi-agent.py]) never call [delete_agent],
    whatever the services answer; the provisioning flow only calls it on an
    agent its own [create_agent] returned. *)
Theorem delete_agent_only_by_provisioning_flow (w : world) :
  deleted_agents (trace Existing.main w) = [] /\
  deleted_agents (trace MultiAgent.main w) = [] /\
  incl (deleted_agents (trace Create.main w))
       (created_agents (trace Create.main w)).
Proof.
  split; [apply existing_never_deletes_agent|].
  split; [apply multi_agent_never_deletes_agent|].
  apply create_deletes_own_agent.
Qed.



(** Both cases occur: a deletion that returns, and one that raises. *)
Example create_cleanup_cases :
  In (EvDeleteThread "thread_1" (inr tt)) (trace Create.main good_world) /\
  deleted_agents (trace Create.main good_world) = ["asst_new"] /\
  cleanup_errors (trace Create.main cleanup_fails_world)
  = [Exn true "thread not found"] /\
  deleted_agents (trace Create.main cleanup_fails_world) = [].
Proof. cbn. repeat split; auto 20. Qed.

(** ** The search connector *)

Ltac unfold_search :=
  cbv beta iota zeta delta
    [MultiAgent.search_web bind ret lift call emit try_finally async_with
     session_get response_json].

(** A returned digest comes from a response whose body parsed. *)
Lemma search_web_inv w h query h' s :
  MultiAgent.search_web query w h = (h', inr s) ->
  exists resp parsed,
    In (EvHttpGet (MultiAgent.SERP_ENDPOINT w)
                  (MultiAgent.search_params w query) (inr resp)) h' /\
    json_body resp = inr parsed /\
    MultiAgent.digest parsed = inr s.
Proof.
  unfold_search.
  destruct (w_http_get w _ _ _) as [e|resp]; [discriminate|].
  destruct (json_body resp) as [e|parsed] eqn:Eb; [discriminate|].
  intros [= <- Hd]. exists resp, parsed.
  split; [|split; [exact Eb | exact Hd]].
  rewrite !in_app_iff. cbn. tauto.
Qed.

(** On a body shaped as the search API documents it, [search_web] returns. *)
Lemma search_web_documented w h query st kv items :
  w_http_get w (h ++ [EvEnter "aiohttp.ClientSession"])%list
             (MultiAgent.SERP_ENDPOINT w) (MultiAgent.search_params w query)
  = inr (HttpResponse st (inr (JObj kv))) ->
  assoc "organic_results" kv = Some (JArr items) ->
  forallb item_ok items = true ->
  snd (MultiAgent.search_web query w h) =
  inr (match kept_snippets items with
       | [] => MultiAgent.no_results
       | _ :: _ => join nl (kept_snippets items)
       end).
Proof.
  intros Hw Hk Hok. unfold_search. rewrite Hw. cbn.
  rewrite (digest_documented kv items Hk Hok). reflexivity.
Qed.

(** C3: whatever the query, a value returned by [search_web] is never the
    empty string: it is the sentinel [no_results] when no result item carries
    an excerpt, and otherwise the excerpts of the items, in the order of the
    items, joined by newlines. *)
Theorem search_web_never_empty w h query h' s :
  MultiAgent.search_web query w h = (h', inr s) ->
  s <> "" /\
  exists resp parsed ss,
    In (EvHttpGet (MultiAgent.SERP_ENDPOINT w)
                  (MultiAgent.search_params w query) (inr resp)) h' /\
    json_body resp = inr parsed /\
    excerpts (result_items parsed) = map JStr ss /\
    ((ss = [] /\ s = MultiAgent.no_results) \/
     (ss <> [] /\ s = join nl ss)).
Proof.
  intros H. apply search_web_inv in H as (resp & parsed & Hin & Hb & Hd).
  apply digest_inv in Hd as (ss & Hex & Hne & Hs).
  split.
  - subst s. destruct ss as [|x ss]; [apply no_results_nonempty|].
    apply join_nonempty; [discriminate | exact Hne].
  - exists resp, parsed, ss. repeat split; try assumption.
    destruct ss; [left | right]; split; auto; discriminate.
Qed.

Lemma search_web_never_empty_witness :
  MultiAgent.search_web sample_query good_world [] =
    (fst (MultiAgent.search_web sample_query good_world []),
     inr ("A permit is needed." ++ nl ++ "Fees apply.")) /\
  "A permit is needed." ++ nl ++ "Fees apply." <> "".
Proof.
  split; [reflexivity|].
  exact (proj1 (search_web_never_empty good_world [] sample_query _ _
                  eq_refl)).
Defined.

(** C9: a returned digest is made of exactly the snippets that are present
    and non-empty, in the order of their items; items without a snippet or
    with an empty one contribute nothing, so no line of the digest is blank
    on their account: splitting a digest of newline-free snippets at the
    newlines gives back those snippets, none of them empty. *)
Theorem digest_skips_absent_snippets w h query h' s :
  MultiAgent.search_web query w h = (h', inr s) ->
  exists resp parsed,
    In (EvHttpGet (MultiAgent.SERP_ENDPOINT w)
                  (MultiAgent.search_params w query) (inr resp)) h' /\
    json_body resp = inr parsed /\
    let kept := kept_snippets (result_items parsed) in
    s = match kept with
        | [] => MultiAgent.no_results
        | _ :: _ => join nl kept
        end /\
    Forall (fun x => x <> "") kept /\
    (kept <> [] -> forallb no_newline kept = true -> split_lines s = kept).
Proof.
  intros H. apply search_web_inv in H as (resp & parsed & Hin & Hb & Hd).
  apply digest_inv in Hd as (ss & Hex & Hne & Hs).
  apply excerpts_strings in Hex.
  exists resp, parsed. split; [exact Hin|]. split; [exact Hb|].
  cbv zeta. rewrite Hex. split; [exact Hs|]. split; [exact Hne|].
  intros Hk Hn. subst s. destruct ss as [|x ss]; [congruence|].
  now apply split_lines_join.
Qed.

Lemma digest_skips_absent_snippets_witness :
  MultiAgent.search_web sample_query good_world [] =
    (fst (MultiAgent.search_web sample_query good_world []),
     inr ("A permit is needed." ++ nl ++ "Fees apply.")) /\
  exists resp parsed,
    In (EvHttpGet (MultiAgent.SERP_ENDPOINT good_world)
                  (MultiAgent.search_params good_world sample_query)
                  (inr resp))
       (fst (MultiAgent.search_web sample_query good_world [])) /\
    json_body resp = inr parsed /\
    let kept := kept_snippets (result_items parsed) in
    "A permit is needed." ++ nl ++ "Fees apply." =
      match kept with
      | [] => MultiAgent.no_results
      | _ :: _ => join nl kept
      end /\
    Forall (fun x => x <> "") kept /\
    (kept <> [] -> forallb no_newline kept = true ->
     split_lines ("A permit is needed." ++ nl ++ "Fees apply.") = kept).
Proof.
  split; [reflexivity|].
  exact (digest_skips_absent_snippets good_world [] sample_query _ _ eq_refl).
Defined.

Example kept_snippets_sample :
  kept_snippets (result_items sample_body) =
  ["A permit is needed."; "Fees apply."].
Proof. reflexivity. Qed.

(** ** The pipeline *)

(** C6: when a stage fails after [n] stages have produced their response,
    those [n] responses have been reported, each under the header of its
    stage, and nothing was started for the stages after the failing one: at
    most [n + 1] sessions were requested, [n + 1] messages posted and
    [n + 1] replies awaited. *)
Theorem stage_failure_keeps_earlier_stages w n e :
  outcome MultiAgent.main w = inl e ->
  length (responses (trace MultiAgent.main w)) = n ->
  n < 3 ->
  (printed (trace MultiAgent.main w) =
     report stage_headers (responses (trace MultiAgent.main w)) \/
   printed (trace MultiAgent.main w) =
     initialized_line ::
     report stage_headers (responses (trace MultiAgent.main w))) /\
  open_calls (trace MultiAgent.main w) <= n + 1 /\
  length (posted (trace MultiAgent.main w)) <= n + 1 /\
  asks (trace MultiAgent.main w) <= n + 1.
Proof.
  revert n e. exec; intros n e' Ho Hn Hlt; cbn in Hn; subst n;
    try discriminate Ho; try lia;
    (split; [cbn; auto | cbn; lia]).
Qed.

Lemma stage_failure_keeps_earlier_stages_witness :
  outcome MultiAgent.main ask_fails_world = inl AgentInvocationError /\
  length (responses (trace MultiAgent.main ask_fails_world)) = 1 /\
  1 < 3 /\
  (printed (trace MultiAgent.main ask_fails_world) =
     report stage_headers (responses (trace MultiAgent.main ask_fails_world)) \/
   printed (trace MultiAgent.main ask_fails_world) =
     initialized_line ::
     report stage_headers (responses (trace MultiAgent.main ask_fails_world))) /\
  open_calls (trace MultiAgent.main ask_fails_world) <= 1 + 1 /\
  length (posted (trace MultiAgent.main ask_fails_world)) <= 1 + 1 /\
  asks (trace MultiAgent.main ask_fails_world) <= 1 + 1.
Proof.
  split; [reflexivity|]. split; [reflexivity|]. split; [lia|].
  apply (stage_failure_keeps_earlier_stages ask_fails_world 1
           AgentInvocationError); [reflexivity | reflexivity | lia].
Defined.

Example ask_fails_report :
  printed (trace MultiAgent.main ask_fails_world) =
  [initialized_line; MultiAgent.doc_header; "reply in thread_1"].
Proof. reflexivity. Qed.

Lemma combined_info_template (response_doc response_web : string) :
  MultiAgent.combined_info response_doc response_web =
  labeled_sections (combine summary_labels [response_doc; response_web]).
Proof. reflexivity. Qed.

Lemma summary_input_of_upstream w m :
  nth_error (posted (trace MultiAgent.main w)) 2 = Some m ->
  length (upstream (trace MultiAgent.main w)) = 2 /\
  m = labeled_sections
        (combine summary_labels (upstream (trace MultiAgent.main w))).
Proof.
  revert m. exec; intros m H; cbn in H; try discriminate H;
    injection H as <-; split; reflexivity.
Qed.

(** Two runs whose upstream stages answered alike post the same summary
    input, whatever else differs between them. *)
Lemma summary_input_deterministic w1 w2 m1 m2 :
  nth_error (posted (trace MultiAgent.main w1)) 2 = Some m1 ->
  nth_error (posted (trace MultiAgent.main w2)) 2 = Some m2 ->
  upstream (trace MultiAgent.main w1) = upstream (trace MultiAgent.main w2) ->
  m1 = m2.
Proof.
  intros H1 H2 Hu.
  apply summary_input_of_upstream in H1 as [_ ->].
  apply summary_input_of_upstream in H2 as [_ ->].
  now rewrite Hu.
Qed.

(** C5: the message posted to the summary stage is the labelled-sections
    template applied to the responses of the two upstream stages, in stage
    order: each response prefixed by the label of its stage, the sections
    separated by a blank line.  Nothing else of the run enters it: any other
    run with the same upstream responses posts the same message. *)
Theorem summary_input_is_template w m :
  nth_error (posted (trace MultiAgent.main w)) 2 = Some m ->
  length (upstream (trace MultiAgent.main w)) = 2 /\
  m = labeled_sections
        (combine summary_labels (upstream (trace MultiAgent.main w))) /\
  (forall w' m',
     nth_error (posted (trace MultiAgent.main w')) 2 = Some m' ->
     upstream (trace MultiAgent.main w') = upstream (trace MultiAgent.main w) ->
     m' = m).
Proof.
  intros H. destruct (summary_input_of_upstream w m H) as [Hl Hm].
  split; [exact Hl|]. split; [exact Hm|].
  intros w' m' H' Hu. exact (summary_input_deterministic w' w m' m H' H Hu).
Qed.

Lemma summary_input_is_template_witness :
  nth_error (posted (trace MultiAgent.main good_world)) 2 =
    Some (MultiAgent.combined_info "reply in thread_1" "reply in thread_2") /\
  length (upstream (trace MultiAgent.main good_world)) = 2 /\
  MultiAgent.combined_info "reply in thread_1" "reply in thread_2" =
  labeled_sections
    (combine summary_labels (upstream (trace MultiAgent.main good_world))).
Proof.
  split; [reflexivity|].
  destruct (summary_input_is_template good_world
              (MultiAgent.combined_info "reply in thread_1" "reply in thread_2")
              eq_refl) as (Hl & Hm & _).
  split; [exact Hl | exact Hm].
Defined.

(** The quota world differs from the sample world in its search response
    only; its upstream agents answer alike and its summary input is the
    same. *)
Example summary_input_same_in_quota_world :
  nth_error (posted (trace MultiAgent.main quota_world)) 2 =
  nth_error (posted (trace MultiAgent.main good_world)) 2.
Proof. vm_compute. reflexivity. Qed.

(** ** Session cleanup *)

(** The single-agent flows attempt to close every session they opened. *)
Lemma existing_closes_every_session w :
  close_attempts (trace Existing.main w) = opened (trace Existing.main w).
Proof. exec; reflexivity. Qed.

Lemma create_closes_every_session w :
  close_attempts (trace Create.main w) = opened (trace Create.main w).
Proof. exec; reflexivity. Qed.

(** The pipeline reaches its cleanup loop only once the three stages have
    answered. *)
Lemma no_cleanup_unless_all_stages_answer w :
  length (responses (trace MultiAgent.main w)) < 3 ->
  close_attempts (trace MultiAgent.main w) = 0.
Proof. exec; cbn; intros H; solve [reflexivity | lia]. Qed.

(** When they have, every session is given its [delete_thread] attempt and
    the errors of the attempts are swallowed. *)
Lemma cleanup_complete_when_stages_answer w :
  length (responses (trace MultiAgent.main w)) = 3 ->
  Forall (fun e => is_Exception e = true)
         (cleanup_errors (trace MultiAgent.main w)) ->
  close_attempts (trace MultiAgent.main w) = 3 /\
  opened (trace MultiAgent.main w) = 3 /\
  outcome MultiAgent.main w = inr tt.
Proof.
  exec; cbn; intros H Hall; try discriminate H;
    repeat match goal with
           | H : Forall _ (_ :: _) |- _ => inversion H; clear H; subst
           end;
    try congruence; repeat split; reflexivity.
Qed.

(** C1, at the run of the specification's scenario: the second stage's
    [get_response] raises.  Two sessions are open when the error escapes
    [main], and no [delete_thread] was attempted on either. *)
Theorem sessions_leak_when_stage_fails :
  outcome MultiAgent.main ask_fails_world = inl AgentInvocationError /\
  opened (trace MultiAgent.main ask_fails_world) = 2 /\
  close_attempts (trace MultiAgent.main ask_fails_world) = 0.
Proof. repeat split; reflexivity. Qed.

(** C8, at a run in which [delete_thread] raises after the response was
    produced and printed: in the provisioning flow and in the reuse flow the
    error of the cleanup escapes [main] and ends the process with status 1;
    the pipeline, on the same world, swallows it. *)
Theorem cleanup_error_escapes_single_agent_flows :
  In "# TechSupportAdvisor: reply in thread_1"
     (printed (trace Create.main cleanup_fails_world)) /\
  outcome Create.main cleanup_fails_world = inl (Exn true "thread not found") /\
  exit_status (outcome Create.main cleanup_fails_world) = 1%Z /\
  outcome Existing.main cleanup_fails_world
    = inl (Exn true "thread not found") /\
  outcome MultiAgent.main cleanup_fails_world = inr tt.
Proof. cbn. repeat split; auto. Qed.

(** In the single-agent flows an error of [delete_thread] is the outcome of
    the run, whatever the body of the [try] did. *)
Lemma existing_cleanup_error_escapes w e :
  In e (cleanup_errors (trace Existing.main w)) ->
  outcome Existing.main w = inl e.
Proof. revert e. exec; cbn; intros e' H; split_ors; subst; reflexivity. Qed.

(** ** Search failures *)

Lemma search_down_aborts :
  search_errors (trace MultiAgent.main search_down_world) <> [] /\
  outcome MultiAgent.main search_down_world
    = inl (Exn true "ClientConnectorError") /\
  posted (trace MultiAgent.main search_down_world) = [sample_query].
Proof. cbn. repeat split; discriminate. Qed.

(** C2 fails where the search request raises: the run ends with the error
    and the web stage is given nothing. *)
Lemma search_failure_does_not_degrade :
  ~ search_failure_degrades search_down_world.
Proof.
  intros H. destruct search_down_aborts as (Hs & Ho & _).
  destruct (H Hs) as [Hr _]. rewrite Ho in Hr. discriminate.
Qed.

(** C2, amended: an error raised by the search request or by the parsing of
    its body escapes [main] as the outcome of the run, with the session of
    the document stage the only one requested and its message the only one
    posted; a body that parses to an object without [organic_results],
    whatever the status of the response, does degrade: the run goes on to
    the web stage, and the message that stage is given carries the
    sentinel. *)
Theorem search_failure_propagates w :
  (forall e, In e (search_errors (trace MultiAgent.main w)) ->
     outcome MultiAgent.main w = inl e /\
     open_calls (trace MultiAgent.main w) = 1 /\
     length (posted (trace MultiAgent.main w)) = 1) /\
  (forall st kv m,
     In (st, JObj kv) (search_bodies (trace MultiAgent.main w)) ->
     assoc "organic_results" kv = None ->
     open_calls (trace MultiAgent.main w) >= 2 /\
     (nth_error (posted (trace MultiAgent.main w)) 1 = Some m ->
      exists q, queries (trace MultiAgent.main w) = [q] /\
                m = MultiAgent.web_message q MultiAgent.no_results)).
Proof.
  exec; (split; [intros e' H | intros st kv m H Hk]);
    repeat match goal with
           | r : http_response |- _ =>
               let a := fresh "st" in let b := fresh "body" in
               destruct r as [a b]
           end;
    cbn [json_body] in *; subst; cbn in H; split_ors;
    try match goal with
        | H : (_, _) = (_, _) |- _ => injection H as ? ?
        end;
    subst; cbn;
    try (repeat split; reflexivity);
    try match goal with
        | Hd : MultiAgent.digest (JObj ?kv) = _,
          Hk : assoc "organic_results" ?kv = None |- _ =>
            rewrite (digest_no_organic kv Hk) in Hd;
            first [discriminate Hd | injection Hd as <-]
        end;
    (split; [lia|]); intros Hm; try discriminate Hm;
    injection Hm as <-; eexists; split; reflexivity.
Qed.

(** A response with status 429 and an error object as body: the web stage is
    given the sentinel and the run completes. *)
Example quota_error_degrades :
  search_bodies (trace MultiAgent.main quota_world) = [(429%Z, error_body)] /\
  nth_error (posted (trace MultiAgent.main quota_world)) 1 =
    Some (MultiAgent.web_message sample_query MultiAgent.no_results) /\
  outcome MultiAgent.main quota_world = inr tt.
Proof. repeat split; reflexivity. Qed.

(** ** Configuration errors *)

Lemma bad_config_returns :
  config_errors (trace MultiAgent.main bad_config_world) <> [] /\
  outcome MultiAgent.main bad_config_world = inr tt.
Proof. cbn. split; [discriminate | reflexivity]. Qed.

(** C4 fails on its exit status: [main] reports the error and returns, and
    the process ends with status 0. *)
Lemma config_error_exits_zero :
  ~ config_error_exits_nonzero bad_config_world.
Proof.
  intros H. destruct bad_config_returns as [Hc Ho].
  destruct (H Hc) as (_ & _ & Hx). rewrite Ho in Hx. now apply Hx.
Qed.

(** C4, amended: when the project client cannot be constructed, no session
    is opened and the agent service is not called at all; an error deriving
    from [Exception] is printed, [main] returns normally and the process
    ends with status 0. *)
Theorem config_error_returns_before_any_session w e :
  In e (config_errors (trace MultiAgent.main w)) ->
  opened (trace MultiAgent.main w) = 0 /\
  filter is_agent_call (trace MultiAgent.main w) = [] /\
  (is_Exception e = true ->
   In ("❌ Error initializing project client: " ++ exn_str e)
      (printed (trace MultiAgent.main w)) /\
   outcome MultiAgent.main w = inr tt /\
   exit_status (outcome MultiAgent.main w) = 0%Z).
Proof.
  revert e. exec; intros e' H; cbn in H; split_ors; subst;
    (split; [reflexivity|]); (split; [reflexivity|]); intros He;
    try congruence; cbn; auto.
Qed.

Lemma config_error_returns_before_any_session_witness :
  In (Exn true "Connection string is missing")
     (config_errors (trace MultiAgent.main bad_config_world)) /\
  opened (trace MultiAgent.main bad_config_world) = 0 /\
  filter is_agent_call (trace MultiAgent.main bad_config_world) = [] /\
  (is_Exception (Exn true "Connection string is missing") = true ->
   In ("❌ Error initializing project client: "
       ++ exn_str (Exn true "Connection string is missing"))
      (printed (trace MultiAgent.main bad_config_world)) /\
   outcome MultiAgent.main bad_config_world = inr tt /\
   exit_status (outcome MultiAgent.main bad_config_world) = 0%Z).
Proof.
  split; [left; reflexivity|].
  apply (config_error_returns_before_any_session bad_config_world).
  left; reflexivity.
Defined.


(** ** Further properties of the search connector *)

Lemma collect_needs_objects (items acc l : list json) :
  MultiAgent.collect items acc = inr l -> forallb is_object items = true.
Proof.
  revert acc; induction items as [|item items IH]; intros acc H; cbn in *;
    [reflexivity|].
  destruct item; cbn in *; try discriminate. eauto.
Qed.

Lemma collect_non_object (items acc : list json) :
  forallb is_object items = false ->
  MultiAgent.collect items acc
  = inl (AttributeError "object has no attribute 'get'").
Proof.
  revert acc; induction items as [|item items IH]; intros acc H; cbn in *;
    [discriminate|].
  destruct item; cbn in *; try reflexivity. now apply IH.
Qed.

Lemma collect_all_objects (items acc : list json) :
  forallb is_object items = true ->
  MultiAgent.collect items acc = inr (acc ++ excerpts items)%list.
Proof.
  revert acc; induction items as [|item items IH]; intros acc H; cbn in *.
  - unfold excerpts; cbn. now rewrite app_nil_r.
  - apply andb_true_iff in H as [Hi Hr].
    destruct item; cbn in Hi; try discriminate. cbn.
    rewrite IH by assumption. unfold excerpts; cbn.
    destruct (truthy _); cbn; [now rewrite <- app_assoc | reflexivity].
Qed.

Lemma strings_of_non_string (l : list json) :
  forallb is_string l = false ->
  strings_of l = inl (TypeError "sequence item: expected str instance").
Proof.
  induction l as [|v l IH]; intros H; cbn in *; [discriminate|].
  destruct v; cbn in *; try reflexivity. now rewrite IH.
Qed.

Lemma excerpts_falsy (items : list json) :
  forallb (fun item => negb (truthy (snippet_field item))) items = true ->
  excerpts items = [].
Proof.
  unfold excerpts.
  induction items as [|item items IH]; intros H; cbn in *; [reflexivity|].
  apply andb_true_iff in H as [Hi Hr]. apply negb_true_iff in Hi.
  rewrite Hi. now apply IH.
Qed.

Lemma digest_of_result_list kv items :
  assoc "organic_results" kv = Some (JArr items) ->
  MultiAgent.digest (JObj kv) =
  match MultiAgent.collect items [] with
  | inl e => inl e
  | inr snippets => MultiAgent.digest_of snippets
  end.
Proof.
  intros Hk. unfold MultiAgent.digest, MultiAgent.snippets_of. cbn.
  now rewrite Hk.
Qed.

(** X1: whatever the service does, [search_web] opens one client session,
    sends exactly one request (the endpoint, and the key, the query,
    [location=Australia] and [hl=en] as parameters) right away, never a
    second one, and leaves the session as its last step; the context of a
    response that arrived is left before it. *)
Theorem search_web_one_request_then_release w h query :
  exists r mid,
    fst (MultiAgent.search_web query w h) =
      (h ++ EvEnter "aiohttp.ClientSession"
         :: EvHttpGet (MultiAgent.SERP_ENDPOINT w)
              [("api_key", os_environ w "SERP_API_KEY"); ("q", Some query);
               ("location", Some "Australia"); ("hl", Some "en")] r
         :: mid ++ [EvExit "aiohttp.ClientSession"])%list /\
    http_calls mid = 0 /\
    nested ["aiohttp.ClientSession"]
           (EvHttpGet (MultiAgent.SERP_ENDPOINT w)
              (MultiAgent.search_params w query) r
            :: mid ++ [EvExit "aiohttp.ClientSession"]) = true.
Proof.
  unfold_search.
  change (MultiAgent.search_params w query) with
    [("api_key", os_environ w "SERP_API_KEY"); ("q", Some query);
     ("location", Some "Australia"); ("hl", Some "en")].
  destruct (w_http_get w _ _ _) as [e|resp].
  - exists (inl e), []. cbn. rewrite <- !app_assoc. auto.
  - destruct (json_body resp) as [e|parsed];
      eexists (inr resp), [_; _]; cbn; rewrite <- !app_assoc; cbn; auto.
Qed.

(** X2: the status of the response is never looked at, nor does the query
    enter the digest: two searches whose responses carry the same body give
    the same result or raise the same error. *)
Theorem search_web_ignores_status w1 w2 h1 h2 q1 q2 r1 r2 :
  w_http_get w1 (h1 ++ [EvEnter "aiohttp.ClientSession"])%list
             (MultiAgent.SERP_ENDPOINT w1) (MultiAgent.search_params w1 q1)
  = inr r1 ->
  w_http_get w2 (h2 ++ [EvEnter "aiohttp.ClientSession"])%list
             (MultiAgent.SERP_ENDPOINT w2) (MultiAgent.search_params w2 q2)
  = inr r2 ->
  json_body r1 = json_body r2 ->
  snd (MultiAgent.search_web q1 w1 h1) = snd (MultiAgent.search_web q2 w2 h2).
Proof.
  intros H1 H2 Hb. unfold_search. rewrite H1, H2, Hb.
  destruct (json_body r2); reflexivity.
Qed.

Lemma search_web_ignores_status_witness :
  w_http_get good_world ([] ++ [EvEnter "aiohttp.ClientSession"])%list
             (MultiAgent.SERP_ENDPOINT good_world)
             (MultiAgent.search_params good_world sample_query)
  = inr (HttpResponse 200 (inr sample_body)) /\
  w_http_get odd_status_world ([] ++ [EvEnter "aiohttp.ClientSession"])%list
             (MultiAgent.SERP_ENDPOINT odd_status_world)
             (MultiAgent.search_params odd_status_world "decks")
  = inr (HttpResponse 500 (inr sample_body)) /\
  json_body (HttpResponse 200 (inr sample_body))
  = json_body (HttpResponse 500 (inr sample_body)) /\
  snd (MultiAgent.search_web sample_query good_world [])
  = snd (MultiAgent.search_web "decks" odd_status_world []).
Proof.
  split; [reflexivity|]. split; [reflexivity|]. split; [reflexivity|].
  apply (search_web_ignores_status good_world odd_status_world [] []
           sample_query "decks"
           (HttpResponse 200 (inr sample_body))
           (HttpResponse 500 (inr sample_body))); reflexivity.
Defined.

(** X3: a result list in which no item carries a truthy snippet (an empty
    list, items without the field, or with [None], an empty string, zero,
    [False] or an empty container as snippet) gives the sentinel, not an
    empty string and not an error. *)
Theorem digest_sentinel_without_snippets kv items :
  assoc "organic_results" kv = Some (JArr items) ->
  forallb (fun item => is_object item && negb (truthy (snippet_field item)))
          items = true ->
  MultiAgent.digest (JObj kv) = inr MultiAgent.no_results.
Proof.
  intros Hk H. rewrite (digest_of_result_list kv items Hk).
  rewrite forallb_forall in H.
  assert (Ho : forallb is_object items = true).
  { apply forallb_forall. intros i Hi.
    now destruct (proj1 (andb_true_iff _ _) (H i Hi)). }
  assert (Hf : forallb (fun item => negb (truthy (snippet_field item))) items
               = true).
  { apply forallb_forall. intros i Hi.
    now destruct (proj1 (andb_true_iff _ _) (H i Hi)). }
  rewrite (collect_all_objects items [] Ho), (excerpts_falsy items Hf).
  reflexivity.
Qed.

Lemma digest_sentinel_without_snippets_witness :
  assoc "organic_results"
        [("organic_results",
          JArr [JObj []; JObj [("snippet", JStr "")];
                JObj [("snippet", JNum 0)]; JObj [("snippet", JNull)]])]
  = Some (JArr [JObj []; JObj [("snippet", JStr "")];
                JObj [("snippet", JNum 0)]; JObj [("snippet", JNull)]]) /\
  forallb (fun item => is_object item && negb (truthy (snippet_field item)))
          [JObj []; JObj [("snippet", JStr "")];
           JObj [("snippet", JNum 0)]; JObj [("snippet", JNull)]] = true /\
  MultiAgent.digest
    (JObj [("organic_results",
            JArr [JObj []; JObj [("snippet", JStr "")];
                  JObj [("snippet", JNum 0)]; JObj [("snippet", JNull)]])])
  = inr MultiAgent.no_results.
Proof.
  split; [reflexivity|]. split; [reflexivity|].
  apply (digest_sentinel_without_snippets
           [("organic_results",
             JArr [JObj []; JObj [("snippet", JStr "")];
                   JObj [("snippet", JNum 0)]; JObj [("snippet", JNull)]])]
           [JObj []; JObj [("snippet", JStr "")];
            JObj [("snippet", JNum 0)]; JObj [("snippet", JNull)]]);
    reflexivity.
Defined.

(** X4: one result item that is not an object (a string, a number, a list,
    [None]) makes the whole search raise [AttributeError], whatever snippets
    the other items carry. *)
Theorem digest_rejects_non_object_item kv items :
  assoc "organic_results" kv = Some (JArr items) ->
  forallb is_object items = false ->
  MultiAgent.digest (JObj kv)
  = inl (AttributeError "object has no attribute 'get'").
Proof.
  intros Hk H. rewrite (digest_of_result_list kv items Hk).
  now rewrite (collect_non_object items [] H).
Qed.

Lemma digest_rejects_non_object_item_witness :
  assoc "organic_results"
        [("organic_results",
          JArr [JObj [("snippet", JStr "A permit is needed.")];
                JStr "advertisement"])]
  = Some (JArr [JObj [("snippet", JStr "A permit is needed.")];
                JStr "advertisement"]) /\
  forallb is_object [JObj [("snippet", JStr "A permit is needed.")];
                     JStr "advertisement"] = false /\
  MultiAgent.digest bare_item_body
  = inl (AttributeError "object has no attribute 'get'").
Proof.
  split; [reflexivity|]. split; [reflexivity|].
  apply (digest_rejects_non_object_item
           [("organic_results",
             JArr [JObj [("snippet", JStr "A permit is needed.")];
                   JStr "advertisement"])]
           [JObj [("snippet", JStr "A permit is needed.")];
            JStr "advertisement"]); reflexivity.
Defined.

(** X5: a truthy snippet that is not a string (a number, [True], a non-empty
    list or object) is gathered like the others and makes the join, and so
    the search, raise [TypeError]; it is neither skipped nor converted. *)
Theorem digest_rejects_non_string_snippet kv items :
  assoc "organic_results" kv = Some (JArr items) ->
  forallb is_object items = true ->
  forallb is_string (excerpts items) = false ->
  MultiAgent.digest (JObj kv)
  = inl (TypeError "sequence item: expected str instance").
Proof.
  intros Hk Ho Hs. rewrite (digest_of_result_list kv items Hk).
  rewrite (collect_all_objects items [] Ho). cbn [app].
  unfold MultiAgent.digest_of, py_join.
  destruct (excerpts items) as [|v l] eqn:E; [discriminate|].
  now rewrite (strings_of_non_string (v :: l) Hs).
Qed.

Lemma digest_rejects_non_string_snippet_witness :
  assoc "organic_results"
        [("organic_results",
          JArr [JObj [("snippet", JStr "A permit is needed.")];
                JObj [("snippet", JNum 42)]])]
  = Some (JArr [JObj [("snippet", JStr "A permit is needed.")];
                JObj [("snippet", JNum 42)]]) /\
  forallb is_object [JObj [("snippet", JStr "A permit is needed.")];
                     JObj [("snippet", JNum 42)]] = true /\
  forallb is_string (excerpts [JObj [("snippet", JStr "A permit is needed.")];
                               JObj [("snippet", JNum 42)]]) = false /\
  MultiAgent.digest number_snippet_body
  = inl (TypeError "sequence item: expected str instance").
Proof.
  split; [reflexivity|]. split; [reflexivity|]. split; [reflexivity|].
  apply (digest_rejects_non_string_snippet
           [("organic_results",
             JArr [JObj [("snippet", JStr "A permit is needed.")];
                   JObj [("snippet", JNum 42)]])]
           [JObj [("snippet", JStr "A permit is needed.")];
            JObj [("snippet", JNum 42)]]); reflexivity.
Defined.

(** X6: a digest other than the sentinel only ever comes from a body that is
    an object whose [organic_results] is a list of objects, at least one of
    them with a non-empty string snippet; a body that is a list, a string, a
    number or [None], or whose [organic_results] is not a list, gives the
    sentinel or an error. *)
Theorem digest_only_from_result_list parsed s :
  MultiAgent.digest parsed = inr s ->
  s <> MultiAgent.no_results ->
  exists kv items,
    parsed = JObj kv /\
    assoc "organic_results" kv = Some (JArr items) /\
    forallb is_object items = true /\
    kept_snippets items <> [] /\
    s = join nl (kept_snippets items).
Proof.
  intros Hd Hs.
  destruct (digest_inv parsed s Hd) as (ss & Hex & _ & Hj).
  destruct ss as [|x ss]; [congruence|].
  apply excerpts_strings in Hex.
  unfold MultiAgent.digest, MultiAgent.snippets_of in Hd.
  unfold result_items in Hex.
  destruct parsed as [|b|z|str|arr|kv]; cbn in Hex; try discriminate.
  destruct (assoc "organic_results" kv) as [organic|] eqn:Hk;
    [|discriminate].
  destruct organic as [|b|z|str|items|kv']; cbn in Hex; try discriminate.
  exists kv, items. cbn in Hd. rewrite Hk in Hd. cbn in Hd.
  destruct (MultiAgent.collect items []) as [e|l] eqn:E; [discriminate|].
  apply collect_needs_objects in E.
  rewrite Hex. repeat split; auto. discriminate.
Qed.

Lemma digest_only_from_result_list_witness :
  MultiAgent.digest sample_body
  = inr ("A permit is needed." ++ nl ++ "Fees apply.") /\
  "A permit is needed." ++ nl ++ "Fees apply." <> MultiAgent.no_results /\
  exists kv items,
    sample_body = JObj kv /\
    assoc "organic_results" kv = Some (JArr items) /\
    forallb is_object items = true /\
    kept_snippets items <> [] /\
    "A permit is needed." ++ nl ++ "Fees apply."
    = join nl (kept_snippets items).
Proof.
  split; [reflexivity|]. split; [discriminate|].
  apply (digest_only_from_result_list sample_body); [reflexivity|discriminate].
Defined.


(** X7: on a body shaped as the search API documents it (an object whose
    [organic_results] is a list of objects, each snippet absent, null or a
    string) [search_web] does return, after one request and one parse, with
    both contexts left: the newline-join of the non-empty snippets, or the
    sentinel when there is none. *)
Theorem search_web_returns_on_documented_body w h query st kv items :
  w_http_get w (h ++ [EvEnter "aiohttp.ClientSession"])%list
             (MultiAgent.SERP_ENDPOINT w) (MultiAgent.search_params w query)
  = inr (HttpResponse st (inr (JObj kv))) ->
  assoc "organic_results" kv = Some (JArr items) ->
  forallb item_ok items = true ->
  MultiAgent.search_web query w h =
  ((h ++ [EvEnter "aiohttp.ClientSession";
          EvHttpGet (MultiAgent.SERP_ENDPOINT w)
                    (MultiAgent.search_params w query)
                    (inr (HttpResponse st (inr (JObj kv))));
          EvResponseJson (inr (JObj kv));
          EvExit "session.get";
          EvExit "aiohttp.ClientSession"])%list,
   inr (match kept_snippets items with
        | [] => MultiAgent.no_results
        | _ :: _ => join nl (kept_snippets items)
        end)).
Proof.
  intros Hw Hk Hok. unfold_search. rewrite Hw. cbn.
  rewrite (digest_documented kv items Hk Hok).
  rewrite <- !app_assoc. reflexivity.
Qed.

Lemma search_web_returns_on_documented_body_witness :
  w_http_get good_world ([] ++ [EvEnter "aiohttp.ClientSession"])%list
             (MultiAgent.SERP_ENDPOINT good_world)
             (MultiAgent.search_params good_world sample_query)
  = inr (HttpResponse 200 (inr sample_body)) /\
  snd (MultiAgent.search_web sample_query good_world [])
  = inr ("A permit is needed." ++ nl ++ "Fees apply.").
Proof.
  split; [reflexivity|].
  exact (f_equal snd
           (search_web_returns_on_documented_body good_world [] sample_query
              200%Z
              [("search_metadata", JObj [("status", JStr "Success")]);
               ("organic_results", JArr (result_items sample_body))]
              (result_items sample_body) eq_refl eq_refl eq_refl)).
Defined.


(** ** Further properties of the flows *)

Ltac solve_incl :=
  unfold incl; cbn; intros; tauto.

(** X8: in the three flows a reply is only ever awaited from an agent on a
    thread after a message was posted, and accepted, through that agent on
    that thread; a failed post is never followed by a wait. *)
Theorem reply_awaited_only_after_post (w : world) :
  posted_before [] (trace MultiAgent.main w) /\
  posted_before [] (trace Existing.main w) /\
  posted_before [] (trace Create.main w).
Proof.
  split; [|split]; exec; cbn; tauto.
Qed.


Lemma multi_agent_handles w :
  incl (touched_threads (trace MultiAgent.main w))
       (created_threads (trace MultiAgent.main w)) /\
  incl (used_agents (trace MultiAgent.main w))
       (resolved_agents (trace MultiAgent.main w)).
Proof. exec; split; solve_incl. Qed.

Lemma existing_handles w :
  incl (touched_threads (trace Existing.main w))
       (created_threads (trace Existing.main w)) /\
  incl (used_agents (trace Existing.main w))
       (resolved_agents (trace Existing.main w)).
Proof. exec; split; solve_incl. Qed.

Lemma create_handles w :
  incl (touched_threads (trace Create.main w))
       (created_threads (trace Create.main w)) /\
  incl (used_agents (trace Create.main w))
       (resolved_agents (trace Create.main w)).
Proof. exec; split; solve_incl. Qed.

(** X9: the three flows only post to, wait on and delete threads that their
    own [create_thread] calls returned, and only talk through agents that
    their own [get_agent] or [create_agent] calls returned. *)
Theorem only_own_threads_and_agents (w : world) :
  (incl (touched_threads (trace MultiAgent.main w))
        (created_threads (trace MultiAgent.main w)) /\
   incl (used_agents (trace MultiAgent.main w))
        (resolved_agents (trace MultiAgent.main w))) /\
  (incl (touched_threads (trace Existing.main w))
        (created_threads (trace Existing.main w)) /\
   incl (used_agents (trace Existing.main w))
        (resolved_agents (trace Existing.main w))) /\
  (incl (touched_threads (trace Create.main w))
        (created_threads (trace Create.main w)) /\
   incl (used_agents (trace Create.main w))
        (resolved_agents (trace Create.main w))).
Proof.
  split; [apply multi_agent_handles|].
  split; [apply existing_handles | apply create_handles].
Qed.

(** X10: in the pipeline the three agents are resolved before anything else
    is done with the service: when a [get_agent] raises, its error is the
    outcome of the run, no thread was requested, no search was sent and
    nothing but the initialisation line was printed. *)
Theorem resolve_failure_starts_no_stage w e :
  In e (resolve_errors (trace MultiAgent.main w)) ->
  outcome MultiAgent.main w = inl e /\
  open_calls (trace MultiAgent.main w) = 0 /\
  http_calls (trace MultiAgent.main w) = 0 /\
  printed (trace MultiAgent.main w) = [initialized_line].
Proof.
  revert e. exec; intros e' H; cbn in H; split_ors; subst;
    repeat split; reflexivity.
Qed.

Lemma resolve_failure_starts_no_stage_witness :
  In AgentNotFound (resolve_errors (trace MultiAgent.main agent_missing_world)) /\
  outcome MultiAgent.main agent_missing_world = inl AgentNotFound /\
  open_calls (trace MultiAgent.main agent_missing_world) = 0 /\
  http_calls (trace MultiAgent.main agent_missing_world) = 0 /\
  printed (trace MultiAgent.main agent_missing_world) = [initialized_line].
Proof.
  split; [left; reflexivity|].
  apply (resolve_failure_starts_no_stage agent_missing_world).
  left; reflexivity.
Defined.

(** X11: on every path of the three flows, failures included, the context
    managers are left in the reverse order of their entering and none stays
    open at the end, and every call to the agent service is made while the
    client is open. *)
Theorem contexts_released_on_every_path (w : world) :
  nested [] (trace MultiAgent.main w) = true /\
  nested [] (trace Existing.main w) = true /\
  nested [] (trace Create.main w) = true.
Proof.
  split; [|split]; exec; reflexivity.
Qed.

Ltac invert_all :=
  repeat match goal with
         | H : Forall _ (_ :: _) |- _ => inversion H; clear H; subst
         end.

(** X12: once the three stages have answered, the pipeline asks for the
    deletion of each of its three threads, in the order of their creation,
    goes on past the deletions that raise an [Exception], and returns
    normally; its output is the initialisation line, the header and response
    of each stage in stage order, then one line per failed deletion. *)
Theorem completed_run_cleans_up_and_reports w :
  length (responses (trace MultiAgent.main w)) = 3 ->
  Forall (fun e => is_Exception e = true)
         (cleanup_errors (trace MultiAgent.main w)) ->
  outcome MultiAgent.main w = inr tt /\
  deleted_threads (trace MultiAgent.main w)
  = created_threads (trace MultiAgent.main w) /\
  length (created_threads (trace MultiAgent.main w)) = 3 /\
  printed (trace MultiAgent.main w)
  = (initialized_line
       :: report stage_headers (responses (trace MultiAgent.main w))
       ++ cleanup_report (trace MultiAgent.main w))%list.
Proof.
  exec; cbn; intros H Hall; try discriminate H; invert_all;
    try congruence; repeat split; reflexivity.
Qed.

Lemma completed_run_cleans_up_and_reports_witness :
  length (responses (trace MultiAgent.main flaky_cleanup_world)) = 3 /\
  Forall (fun e => is_Exception e = true)
         (cleanup_errors (trace MultiAgent.main flaky_cleanup_world)) /\
  outcome MultiAgent.main flaky_cleanup_world = inr tt /\
  deleted_threads (trace MultiAgent.main flaky_cleanup_world)
  = created_threads (trace MultiAgent.main flaky_cleanup_world) /\
  length (created_threads (trace MultiAgent.main flaky_cleanup_world)) = 3 /\
  printed (trace MultiAgent.main flaky_cleanup_world)
  = (initialized_line
       :: report stage_headers
            (responses (trace MultiAgent.main flaky_cleanup_world))
       ++ cleanup_report (trace MultiAgent.main flaky_cleanup_world))%list.
Proof.
  split; [reflexivity|].
  split; [repeat constructor|].
  apply (completed_run_cleans_up_and_reports flaky_cleanup_world);
    [reflexivity | repeat constructor].
Defined.

(** X13: an exception of [delete_thread] that does not derive from
    [Exception] (a cancellation) is not swallowed by the cleanup loop: it is
    the outcome of the run, and the threads after the one being deleted are
    left without a deletion attempt. *)
Theorem cancellation_stops_cleanup w e :
  In e (cleanup_errors (trace MultiAgent.main w)) ->
  is_Exception e = false ->
  outcome MultiAgent.main w = inl e /\
  exists rest,
    created_threads (trace MultiAgent.main w)
    = (deleted_threads (trace MultiAgent.main w) ++ rest)%list.
Proof.
  revert e. exec; intros e' H He; cbn in H; split_ors; subst;
    try congruence; (split; [reflexivity|]); cbn; eexists; reflexivity.
Qed.

Lemma cancellation_stops_cleanup_witness :
  In CancelledError
     (cleanup_errors (trace MultiAgent.main cancelled_cleanup_world)) /\
  is_Exception CancelledError = false /\
  outcome MultiAgent.main cancelled_cleanup_world = inl CancelledError /\
  exists rest,
    created_threads (trace MultiAgent.main cancelled_cleanup_world)
    = (deleted_threads (trace MultiAgent.main cancelled_cleanup_world)
       ++ rest)%list.
Proof.
  split; [left; reflexivity|]. split; [reflexivity|].
  apply (cancellation_stops_cleanup cancelled_cleanup_world);
    [left; reflexivity | reflexivity].
Defined.

Example cancelled_cleanup_leaves_two_threads :
  deleted_threads (trace MultiAgent.main cancelled_cleanup_world)
  = ["thread_1"] /\
  created_threads (trace MultiAgent.main cancelled_cleanup_world)
  = ["thread_1"; "thread_2"; "thread_3"].
Proof. split; reflexivity. Qed.

(** X14: an exception of the project client's construction that does not
    derive from [Exception] is not caught by the guard of [main]: it is the
    outcome of the run, nothing is printed and the agent service is not
    called. *)
Theorem interrupted_configuration_propagates w e :
  In e (config_errors (trace MultiAgent.main w)) ->
  is_Exception e = false ->
  outcome MultiAgent.main w = inl e /\
  printed (trace MultiAgent.main w) = [] /\
  filter is_agent_call (trace MultiAgent.main w) = [].
Proof.
  revert e. exec; intros e' H He; cbn in H; split_ors; subst;
    try congruence; repeat split; reflexivity.
Qed.

Lemma interrupted_configuration_propagates_witness :
  In CancelledError
     (config_errors (trace MultiAgent.main cancelled_config_world)) /\
  is_Exception CancelledError = false /\
  outcome MultiAgent.main cancelled_config_world = inl CancelledError /\
  printed (trace MultiAgent.main cancelled_config_world) = [] /\
  filter is_agent_call (trace MultiAgent.main cancelled_config_world) = [].
Proof.
  split; [left; reflexivity|]. split; [reflexivity|].
  apply (interrupted_configuration_propagates cancelled_config_world);
    [left; reflexivity | reflexivity].
Defined.

Lemma digest_nonempty parsed s :
  MultiAgent.digest parsed = inr s -> s <> "".
Proof.
  intros H. apply digest_inv in H as (ss & _ & Hne & ->).
  destruct ss as [|x ss]; [apply no_results_nonempty|].
  apply join_nonempty; [discriminate | exact Hne].
Qed.

(** X15: the document stage is given the query exactly as it was typed, and
    the web stage is given that same query, quoted, followed by what
    [search_web] computed for it: the digest of the body the one search
    request of the run returned, which is never empty. *)
Theorem stage_inputs_carry_the_query w m :
  nth_error (posted (trace MultiAgent.main w)) 1 = Some m ->
  exists q st body d,
    queries (trace MultiAgent.main w) = [q] /\
    nth_error (posted (trace MultiAgent.main w)) 0 = Some q /\
    search_bodies (trace MultiAgent.main w) = [(st, body)] /\
    MultiAgent.digest body = inr d /\
    d <> "" /\
    m = "Web search results for '" ++ q ++ "':" ++ nl ++ d.
Proof.
  revert m. exec; intros m H; cbn in H; try discriminate H;
    injection H as <-;
    repeat match goal with
           | r : http_response |- _ =>
               let a := fresh "st" in let b := fresh "body" in
               destruct r as [a b]
           end;
    cbn [json_body] in *; subst;
    match goal with
    | Hd : MultiAgent.digest ?b = inr ?d |- _ =>
        eexists _, _, b, d; repeat split;
        [exact Hd | exact (digest_nonempty _ _ Hd)]
    end.
Qed.

Lemma stage_inputs_carry_the_query_witness :
  nth_error (posted (trace MultiAgent.main good_world)) 1
  = Some (MultiAgent.web_message sample_query
            ("A permit is needed." ++ nl ++ "Fees apply.")) /\
  exists q st body d,
    queries (trace MultiAgent.main good_world) = [q] /\
    nth_error (posted (trace MultiAgent.main good_world)) 0 = Some q /\
    search_bodies (trace MultiAgent.main good_world) = [(st, body)] /\
    MultiAgent.digest body = inr d /\
    d <> "" /\
    MultiAgent.web_message sample_query
      ("A permit is needed." ++ nl ++ "Fees apply.")
    = "Web search results for '" ++ q ++ "':" ++ nl ++ d.
Proof.
  split; [reflexivity|].
  apply (stage_inputs_carry_the_query good_world). reflexivity.
Defined.

(** X16: in the provisioning flow the thread is created outside the [try]:
    when [create_thread] raises, the error is the outcome of the run and the
    agent the run has just created is left on the service, with no
    [delete_agent] and no [delete_thread] attempted. *)
Theorem thread_failure_leaves_created_agent w e :
  In e (open_errors (trace Create.main w)) ->
  outcome Create.main w = inl e /\
  length (created_agents (trace Create.main w)) = 1 /\
  deleted_agents (trace Create.main w) = [] /\
  close_attempts (trace Create.main w) = 0.
Proof.
  revert e. exec; intros e' H; cbn in H; split_ors; subst;
    repeat split; reflexivity.
Qed.

Lemma thread_failure_leaves_created_agent_witness :
  In (Exn true "thread quota exceeded")
     (open_errors (trace Create.main no_thread_world)) /\
  outcome Create.main no_thread_world = inl (Exn true "thread quota exceeded") /\
  length (created_agents (trace Create.main no_thread_world)) = 1 /\
  deleted_agents (trace Create.main no_thread_world) = [] /\
  close_attempts (trace Create.main no_thread_world) = 0.
Proof.
  split; [left; reflexivity|].
  apply (thread_failure_leaves_created_agent no_thread_world).
  left; reflexivity.
Defined.

(** X17: in the provisioning flow, once the thread exists and its deletion
    goes through, the created agent is asked to be deleted exactly once,
    whether the query succeeded or raised; and an error of the query is
    still the outcome of the run when [delete_agent] returns. *)
Theorem created_agent_deleted_even_if_query_fails w :
  opened (trace Create.main w) = 1 ->
  cleanup_errors (trace Create.main w) = [] ->
  deleted_agents (trace Create.main w) = created_agents (trace Create.main w) /\
  length (deleted_agents (trace Create.main w)) = 1 /\
  (forall e, In e (ask_errors (trace Create.main w)) ->
     delete_agent_errors (trace Create.main w) = [] ->
     outcome Create.main w = inl e).
Proof.
  exec; cbn; intros Ho Hc; try discriminate Ho; try discriminate Hc;
    (split; [reflexivity|]); (split; [reflexivity|]);
    intros e' H Hd; split_ors; subst; try discriminate Hd; reflexivity.
Qed.

Lemma created_agent_deleted_even_if_query_fails_witness :
  opened (trace Create.main query_fails_world) = 1 /\
  cleanup_errors (trace Create.main query_fails_world) = [] /\
  deleted_agents (trace Create.main query_fails_world)
  = created_agents (trace Create.main query_fails_world) /\
  length (deleted_agents (trace Create.main query_fails_world)) = 1 /\
  (forall e, In e (ask_errors (trace Create.main query_fails_world)) ->
     delete_agent_errors (trace Create.main query_fails_world) = [] ->
     outcome Create.main query_fails_world = inl e).
Proof.
  split; [reflexivity|]. split; [reflexivity|].
  apply (created_agent_deleted_even_if_query_fails query_fails_world);
    reflexivity.
Defined.

(** X18: in the reuse flow the [finally] block decides the outcome of a
    failed query: when [delete_thread] returns, the error of the query is
    the outcome of the run; when [delete_thread] raises too, its error
    replaces the error of the query. *)
Theorem cleanup_error_masks_query_error w e1 :
  In e1 (ask_errors (trace Existing.main w)) ->
  (cleanup_errors (trace Existing.main w) = [] ->
   outcome Existing.main w = inl e1) /\
  (forall e2, In e2 (cleanup_errors (trace Existing.main w)) ->
   outcome Existing.main w = inl e2).
Proof.
  revert e1. exec; intros e1 H; cbn in H; split_ors; subst;
    (split; [intros Hc; try discriminate Hc; reflexivity|]);
    intros e2 H2; cbn in H2; split_ors; subst; reflexivity.
Qed.

Lemma cleanup_error_masks_query_error_witness :
  In AgentInvocationError (ask_errors (trace Existing.main all_fails_world)) /\
  (cleanup_errors (trace Existing.main all_fails_world) = [] ->
   outcome Existing.main all_fails_world = inl AgentInvocationError) /\
  (forall e2, In e2 (cleanup_errors (trace Existing.main all_fails_world)) ->
   outcome Existing.main all_fails_world = inl e2).
Proof.
  split; [left; reflexivity|].
  apply (cleanup_error_masks_query_error all_fails_world).
  left; reflexivity.
Defined.

Example all_fails_outcome :
  outcome Existing.main all_fails_world = inl (Exn true "thread not found").
Proof. reflexivity. Qed.

(** X19: the two single-agent flows ask for the deletion of the thread they
    created on every path, and of no other: the threads deleted are the
    threads created, whether the post, the reply or nothing failed. *)
Theorem single_agent_flows_delete_their_thread (w : world) :
  deleted_threads (trace Existing.main w)
  = created_threads (trace Existing.main w) /\
  deleted_threads (trace Create.main w)
  = created_threads (trace Create.main w).
Proof. split; exec; reflexivity. Qed.


(** X20: the pipeline sends at most one search request per run, and none
    before the document stage has answered: a run that fails earlier costs
    no call to the search API. *)
Theorem search_sent_once_after_document_stage (w : world) :
  http_calls (trace MultiAgent.main w) <= 1 /\
  http_calls (trace MultiAgent.main w)
  <= length (responses (trace MultiAgent.main w)).
Proof. exec; cbn; lia. Qed.
